(** * Shallow embedding of the MCP news-tools server (src/main.py)

    The server is a FastAPI application.  Its handlers talk to three
    external services (the news API, the OpenAI chat API, an SMTP server)
    and to the local file system.  The external services are modelled as
    oracle functions (Section variables); every call to one is recorded in
    an event log, and the server's own state (its configuration read at
    start-up and its working-directory files) is threaded explicitly
    through a small state-and-exception monad. *)

From Stdlib Require Import String Ascii List ZArith Bool Lia.
Import ListNotations.
Open Scope string_scope.
Set Warnings "-register-all".

(** ** Decoded JSON values (as Python sees them after [json.loads]).
    Numbers are integers; objects are dicts, i.e. association lists with
    unique keys. *)
Inductive json : Type :=
| JNull
| JBool (b : bool)
| JInt (z : Z)
| JStr (s : string)
| JArr (l : list json)
| JObj (kvs : list (string * json)).

(** [d.get(k)]: [None] when the key is absent. *)
Fixpoint dict_get (kvs : list (string * json)) (k : string) : option json :=
  match kvs with
  | [] => None
  | (k', v) :: rest => if String.eqb k k' then Some v else dict_get rest k
  end.

(** [d.get(k, default)] *)
Definition dict_get_or (kvs : list (string * json)) (k : string) (d : json) : json :=
  match dict_get kvs k with Some v => v | None => d end.

(** Python truthiness of a decoded JSON value ([not x]). *)
Definition truthy (j : json) : bool :=
  match j with
  | JNull => false
  | JBool b => b
  | JInt z => negb (Z.eqb z 0)
  | JStr s => negb (String.eqb s "")
  | JArr l => match l with [] => false | _ => true end
  | JObj kvs => match kvs with [] => false | _ => true end
  end.

(** Characters and small string helpers. *)
Definition nl : string := String (ascii_of_nat 10) EmptyString.

(** [str.split(".", 1)[1]]: the part after the first dot; [None] when
    there is no dot (Python raises [IndexError]). *)
Fixpoint after_first_dot (s : string) : option string :=
  match s with
  | EmptyString => None
  | String c rest => if Ascii.eqb c "." then Some rest else after_first_dot rest
  end.

(** Strings are UTF-8 byte strings.  Whitespace as [str.strip()] sees
    it: the ASCII characters for which [str.isspace()] holds ... *)
Definition is_space (c : ascii) : bool :=
  let n := nat_of_ascii c in
  ((9 <=? n) && (n <=? 13))%nat || ((28 <=? n) && (n <=? 32))%nat.

Definition bytes (l : list nat) : string := string_of_list_ascii (map ascii_of_nat l).

(** ... and the UTF-8 encodings of the non-ASCII ones: U+0085, U+00A0,
    U+1680, U+2000 to U+200A, U+2028, U+2029, U+202F, U+205F, U+3000. *)
Definition UNICODE_SPACES : list string :=
  map bytes
    ([[194; 133]; [194; 160]; [225; 154; 128]]%nat ++
     map (fun k => [226; 128; 128 + k]%nat) (seq 0 11) ++
     [[226; 128; 168]; [226; 128; 169]; [226; 128; 175]; [226; 129; 159]; [227; 128; 128]]%nat)%list.

(** [s] without the prefix [p], if [p] is one. *)
Fixpoint strip_prefix (p s : string) : option string :=
  match p, s with
  | EmptyString, _ => Some s
  | String a p', String b s' => if Ascii.eqb a b then strip_prefix p' s' else None
  | String _ _, EmptyString => None
  end.

Fixpoint first_some {A B} (f : A -> option B) (l : list A) : option B :=
  match l with
  | [] => None
  | x :: rest => match f x with Some y => Some y | None => first_some f rest end
  end.

(** Drop leading whitespace: ASCII bytes, or whole sequences of [seps].
    Every round removes at least one byte, so [length s] rounds suffice. *)
Fixpoint lstrip_fuel (n : nat) (seps : list string) (s : string) : string :=
  match n with
  | O => s
  | S n' =>
    match s with
    | EmptyString => EmptyString
    | String c rest =>
      if is_space c then lstrip_fuel n' seps rest
      else match first_some (fun p => strip_prefix p s) seps with
           | Some rest' => lstrip_fuel n' seps rest'
           | None => s
           end
    end
  end.

Definition lstrip (seps : list string) (s : string) : string := lstrip_fuel (String.length s) seps s.

Definition rev_string (s : string) : string :=
  string_of_list_ascii (rev (list_ascii_of_string s)).

(** [str.strip()]: the trailing side is stripped on the reversed bytes,
    with the reversed encodings. *)
Definition strip (s : string) : string :=
  rev_string (lstrip (map rev_string UNICODE_SPACES) (rev_string (lstrip UNICODE_SPACES s))).

(** [sep.join(items)] *)
Fixpoint join (sep : string) (items : list string) : string :=
  match items with
  | [] => ""
  | [x] => x
  | x :: rest => x ++ sep ++ join sep rest
  end.

(** ** Server state: configuration read by [load_dotenv]/[os.getenv] at
    import time, and the files of the working directory. *)
Record config : Type := mkConfig {
  OPENAI_API_KEY : option string;
  NEWS_API_KEY : option string;
  SMTP_USER : option string;
  SMTP_PASS : option string;
  SMTP_HOST : string;
  SMTP_PORT : Z;
  MCP_API_KEY : string
}.

Definition NEWS_API_URL : string := "https://newsapi.org/v2/everything".

(** [client = OpenAI(api_key=OPENAI_API_KEY) if OPENAI_API_KEY else None] *)
Definition client_present (c : config) : bool :=
  match OPENAI_API_KEY c with
  | Some k => negb (String.eqb k "")
  | None => false
  end.

Record server : Type := mkServer {
  cfg : config;
  files : list (string * string)   (* path -> contents *)
}.

(** [open(path, "w").write(contents)] on the file table. *)
Fixpoint write_file (fs : list (string * string)) (p c : string) : list (string * string) :=
  match fs with
  | [] => [(p, c)]
  | (p', c') :: rest => if String.eqb p p' then (p, c) :: rest else (p', c') :: write_file rest p c
  end.

(** External calls, as they leave the process. *)
Inductive event : Type :=
| ENewsGet (url : string) (params : list (string * json))
| EChat (model : string) (messages : list (string * string))
| ESmtpSend (host : string) (port : Z) (from : option string) (to_ : string)
            (subject : string) (body : string).

Record st : Type := mkSt { srv : server; log : list event }.

(** Python exceptions: pydantic's [ValidationError] (with its error list),
    FastAPI's [HTTPException] (with its status), and every other one. *)
Inductive exn : Type :=
| ValidationError (errors : json)
| HTTPException (status : Z)
| OtherError (what : string).

Inductive outcome (A : Type) : Type :=
| Ok (a : A)
| Raise (e : exn).
Arguments Ok {A} a.
Arguments Raise {A} e.

(** ** State/exception monad. *)
Definition M (A : Type) : Type := st -> st * outcome A.

Definition ret {A} (a : A) : M A := fun s => (s, Ok a).
Definition raise {A} (e : exn) : M A := fun s => (s, Raise e).
Definition bind {A B} (m : M A) (k : A -> M B) : M B :=
  fun s => match m s with
           | (s', Ok a) => k a s'
           | (s', Raise e) => (s', Raise e)
           end.
Notation "x <- m ;; k" := (bind m (fun x => k))
  (at level 61, m at next level, right associativity).
Notation "m ;;; k" := (bind m (fun _ => k))
  (at level 61, right associativity).

Definition emit (e : event) : M unit :=
  fun s => (mkSt (srv s) (log s ++ [e])%list, Ok tt).
Definition get_config : M config := fun s => (s, Ok (cfg (srv s))).

(** [try: m except ...: h e] *)
Definition try_catch {A} (m : M A) (h : exn -> M A) : M A :=
  fun s => match m s with
           | (s', Raise e) => h e s'
           | r => r
           end.

(** ** The outside world.  The news API answers a query string with a
    decoded JSON body ([None]: connection error, timeout, non-2xx status
    caught by [raise_for_status], or undecodable body); the chat API
    answers a model and message list with the message content ([None]:
    the call raises or the content is [None]); the SMTP exchange succeeds
    or raises; [open(path, "w")] succeeds or raises.  [py_str] is Python's
    [str()] of a decoded JSON value, and [str_lax], [int_lax],
    [email_check] are pydantic's coercions for [str], [int] and
    [EmailStr] beyond the exact JSON type. *)
Record world : Type := mkWorld {
  news_api : list (string * json) -> option json;
  chat : string -> list (string * string) -> option string;
  smtp_ok : config -> string -> string -> string -> bool;
  can_open : string -> bool;
  py_str : json -> string;
  str_lax : json -> option string;
  int_lax : json -> option Z;
  email_check : string -> option string
}.

(** HTTP responses produced by the FastAPI application. *)
Inductive http_resp : Type :=
| HttpJson (body : json)
| HttpError (status : Z).

(** Validated tool arguments: [model.dict()] of each parameter model. *)
Inductive tool_args : Type :=
| AFetch (topic date : string) (count : Z)
| ASummarize (articles : list (list (string * json)))
| ASend (to_email subject body : string)
| ASmart (date email : string) (topics : list (string * Z)).

(** The pydantic parameter models. *)
Inductive param_model : Type :=
| FetchNewsParams
| SendEmailParams
| SummarizeParams
| SmartNewsEmailParams.

(** [requests] leaves out query parameters whose value is [None]. *)
Definition drop_none (ps : list (string * json)) : list (string * json) :=
  filter (fun kv => match snd kv with JNull => false | _ => true end) ps.

Definition opt_json (o : option string) : json :=
  match o with Some s => JStr s | None => JNull end.

Section Server.

Variable w : world.

(** [fetch_news_impl(topic, date, count)] *)
Definition fetch_news_params (c : config) (topic : json) (date : string) (count : json)
  : list (string * json) :=
  drop_none [("q", topic); ("apiKey", opt_json (NEWS_API_KEY c)); ("pageSize", count);
             ("language", JStr "en"); ("from", JStr date); ("to", JStr date)].

Definition fetch_news_impl (topic : json) (date : string) (count : json) : M json :=
  c <- get_config ;;
  let params := fetch_news_params c topic date count in
  emit (ENewsGet NEWS_API_URL params) ;;;
  match news_api w params with
  | None => raise (OtherError "requests.HTTPError")
  | Some (JObj body) => ret (dict_get_or body "articles" (JArr []))
  | Some _ => raise (OtherError "AttributeError")
  end.

Definition NO_NEWS : string := "<p>No news found for the selected topics/date.</p>".
Definition NO_KEY : string := "OpenAI API key missing".

Definition SYSTEM_PROMPT : string :=
  "You are a helpful assistant. " ++
  "Summarize each news item in 2-3 sentences. " ++
  "Output clean HTML with this format:" ++ nl ++
  "<h2>Title</h2>" ++ nl ++
  "<p><b>Date:</b> YYYY-MM-DD</p>" ++ nl ++
  "<p><b>Summary:</b> ...</p>" ++ nl ++
  "<p><a href='link'>Read More</a></p>" ++ nl ++
  "<hr>" ++ nl.

(** One entry of [news_text]. *)
Definition format_article (a : list (string * json)) : string :=
  "Title: " ++ py_str w (dict_get_or a "title" JNull) ++ nl ++
  "Date: " ++ py_str w (dict_get_or a "publishedAt" JNull) ++ nl ++
  "Content: " ++ py_str w (dict_get_or a "content" JNull) ++ nl ++
  "Link: " ++ py_str w (dict_get_or a "url" JNull).

(** [a.get(...)] needs every article to be a dict. *)
Fixpoint as_dicts (l : list json) : option (list (list (string * json))) :=
  match l with
  | [] => Some []
  | JObj kvs :: rest => option_map (cons kvs) (as_dicts rest)
  | _ :: _ => None
  end.

Definition summarize_articles_impl (articles : list json) : M string :=
  match articles with
  | [] => ret NO_NEWS
  | _ :: _ =>
    match as_dicts articles with
    | None => raise (OtherError "AttributeError")
    | Some ds =>
      let news_text := join (nl ++ nl) (map format_article ds) in
      c <- get_config ;;
      if negb (client_present c) then ret NO_KEY
      else
        let prompt := [("system", SYSTEM_PROMPT); ("user", news_text)] in
        emit (EChat "gpt-4o-mini" prompt) ;;;
        match chat w "gpt-4o-mini" prompt with
        | None => raise (OtherError "openai.APIError")
        | Some content => ret (strip content)
        end
    end
  end.

Definition send_email_impl (to_email subject body : string) : M json :=
  c <- get_config ;;
  emit (ESmtpSend (SMTP_HOST c) (SMTP_PORT c) (SMTP_USER c) to_email subject body) ;;;
  if smtp_ok w c to_email subject body then ret (JObj [("sent", JBool true)])
  else raise (OtherError "smtplib.SMTPException").

(** [with open(filename, "w") as f: f.write(contents)] *)
Definition write_file_m (path contents : string) : M unit :=
  fun s => if can_open w path
           then (mkSt (mkServer (cfg (srv s)) (write_file (files (srv s)) path contents)) (log s), Ok tt)
           else (s, Raise (OtherError "OSError")).

(** [t["topic"]] *)
Definition subscript (t : json) (k : string) : M json :=
  match t with
  | JObj kvs => match dict_get kvs k with
                | Some v => ret v
                | None => raise (OtherError "KeyError")
                end
  | _ => raise (OtherError "TypeError")
  end.

(** The items [list.extend] takes from an iterable: the elements of a
    list, the characters of a string, the keys of a dict. *)
Definition iter_items (j : json) : option (list json) :=
  match j with
  | JArr l => Some l
  | JStr s => Some (map (fun c => JStr (String c EmptyString)) (list_ascii_of_string s))
  | JObj kvs => Some (map (fun kv => JStr (fst kv)) kvs)
  | _ => None
  end.

Definition py_iter (j : json) : M (list json) :=
  match iter_items j with
  | Some l => ret l
  | None => raise (OtherError "TypeError")
  end.

(** The [for t in topics] loop of [smart_news_email_impl]. *)
Fixpoint fetch_topics (date : string) (topics : list json) (all_articles : list json)
  : M (list json) :=
  match topics with
  | [] => ret all_articles
  | t :: rest =>
    topic <- subscript t "topic" ;;
    articles <- fetch_news_impl topic date
                  (match t with JObj kvs => dict_get_or kvs "count" (JInt 5) | _ => JNull end) ;;
    items <- py_iter articles ;;
    fetch_topics date rest (all_articles ++ items)%list
  end.

Definition summary_filename (date : string) : string := "news_summary_" ++ date ++ ".html".

Definition smart_news_email_impl (date email : string) (topics : list json) : M json :=
  all_articles <- fetch_topics date topics [] ;;
  summary_html <- summarize_articles_impl all_articles ;;
  let filename := summary_filename date in
  write_file_m filename summary_html ;;;
  send_email_impl email ("Daily News Summary - " ++ date) summary_html ;;;
  ret (JObj [("status", JStr "success"); ("file", JStr filename)]).

End Server.

(** ** Pydantic validation of the parameter models.  Errors are collected
    over all fields, as pydantic does; each error records the field path. *)
Definition verr (loc : list string) (msg : string) : json :=
  JObj [("loc", JArr (map JStr loc)); ("msg", JStr msg)].

Definition both {A B} (x : list json + A) (y : list json + B) : list json + (A * B) :=
  match x, y with
  | inr a, inr b => inr (a, b)
  | inl e1, inl e2 => inl (e1 ++ e2)%list
  | inl e, inr _ => inl e
  | inr _, inl e => inl e
  end.

Definition vmap {A B} (f : A -> B) (x : list json + A) : list json + B :=
  match x with inr a => inr (f a) | inl e => inl e end.

Section Validation.

Variable w : world.

Definition as_str (j : json) : option string :=
  match j with JStr s => Some s | _ => str_lax w j end.
Definition as_int (j : json) : option Z :=
  match j with JInt z => Some z | _ => int_lax w j end.
Definition as_email (j : json) : option string :=
  match j with JStr s => email_check w s | _ => None end.

(** One field: required when [dflt] is [None]. *)
Definition field {A} (kvs : list (string * json)) (name : string)
  (conv : json -> option A) (dflt : option A) : list json + A :=
  match dict_get kvs name with
  | None => match dflt with Some d => inr d | None => inl [verr [name] "Field required"] end
  | Some v => match conv v with Some a => inr a | None => inl [verr [name] "Input should be valid"] end
  end.

(** [TopicCount]: [topic: str], [count: int = 5]. *)
Definition validate_topic_count (j : json) : list json + (string * Z) :=
  match j with
  | JObj kvs => both (field kvs "topic" as_str None) (field kvs "count" as_int (Some 5%Z))
  | _ => inl [verr ["topics"] "Input should be a valid dictionary"]
  end.

Fixpoint validate_list {A} (f : json -> list json + A) (l : list json) : list json + list A :=
  match l with
  | [] => inr []
  | x :: rest => vmap (fun p => fst p :: snd p) (both (f x) (validate_list f rest))
  end.

Definition as_list {A} (name : string) (f : json -> list json + A) (j : json) : list json + list A :=
  match j with
  | JArr l => validate_list f l
  | _ => inl [verr [name] "Input should be a valid list"]
  end.

Definition as_dict_field (j : json) : list json + list (string * json) :=
  match j with
  | JObj kvs => inr kvs
  | _ => inl [verr ["articles"] "Input should be a valid dictionary"]
  end.

Definition required_list {A} (kvs : list (string * json)) (name : string)
  (f : json -> list json + A) : list json + list A :=
  match dict_get kvs name with
  | None => inl [verr [name] "Field required"]
  | Some v => as_list name f v
  end.

(** Validating a dict [params] against a model: [Model(...)] with the dict as keyword arguments. *)
Definition validate (m : param_model) (kvs : list (string * json)) : list json + tool_args :=
  match m with
  | FetchNewsParams =>
    vmap (fun '(t, (d, c)) => AFetch t d c)
      (both (field kvs "topic" as_str None)
            (both (field kvs "date" as_str None) (field kvs "count" as_int (Some 5%Z))))
  | SendEmailParams =>
    vmap (fun '(t, (s, b)) => ASend t s b)
      (both (field kvs "to_email" as_email None)
            (both (field kvs "subject" as_str None) (field kvs "body" as_str None)))
  | SummarizeParams =>
    vmap ASummarize (required_list kvs "articles" as_dict_field)
  | SmartNewsEmailParams =>
    vmap (fun '(d, (e, ts)) => ASmart d e ts)
      (both (field kvs "date" as_str None)
            (both (field kvs "email" as_email None)
                  (required_list kvs "topics" validate_topic_count)))
  end.

(** [TOOLS_MODELS[tool_name]] applied to [params] as keyword arguments. *)
Definition instantiate (m : param_model) (params : json) : M tool_args :=
  match params with
  | JObj kvs => match validate m kvs with
                | inr a => ret a
                | inl es => raise (ValidationError (JArr es))
                end
  | _ => raise (OtherError "TypeError: argument after ** must be a mapping")
  end.

End Validation.

(** [model.dict()] of a [TopicCount] list. *)
Definition topic_dicts (ts : list (string * Z)) : list json :=
  map (fun '(t, c) => JObj [("topic", JStr t); ("count", JInt c)]) ts.

Definition bad_kwargs {A} : M A := raise (OtherError "TypeError: unexpected keyword argument").

(** ** The registry. *)
Definition TOOLS_IMPL (w : world) : list (string * (tool_args -> M json)) :=
  [("fetch_news", fun a => match a with
                           | AFetch t d c => fetch_news_impl w (JStr t) d (JInt c)
                           | _ => bad_kwargs end);
   ("summarize_articles", fun a => match a with
                                   | ASummarize arts =>
                                       s <- summarize_articles_impl w (map JObj arts) ;; ret (JStr s)
                                   | _ => bad_kwargs end);
   ("send_email", fun a => match a with
                           | ASend t s b => send_email_impl w t s b
                           | _ => bad_kwargs end);
   ("smart_news_email", fun a => match a with
                                 | ASmart d e ts => smart_news_email_impl w d e (topic_dicts ts)
                                 | _ => bad_kwargs end)].

Definition TOOLS_MODELS : list (string * param_model) :=
  [("fetch_news", FetchNewsParams);
   ("summarize_articles", SummarizeParams);
   ("send_email", SendEmailParams);
   ("smart_news_email", SmartNewsEmailParams)].

(** [Model.schema()], the JSON schema pydantic generates (titles,
    properties and required fields). *)
Definition prop (name ty : string) : string * json :=
  (name, JObj [("title", JStr name); ("type", JStr ty)]).

Definition model_schema (m : param_model) : json :=
  match m with
  | FetchNewsParams =>
    JObj [("title", JStr "FetchNewsParams"); ("type", JStr "object");
          ("properties", JObj [prop "topic" "string"; prop "date" "string";
                               ("count", JObj [("title", JStr "Count"); ("type", JStr "integer"); ("default", JInt 5)])]);
          ("required", JArr [JStr "topic"; JStr "date"])]
  | SendEmailParams =>
    JObj [("title", JStr "SendEmailParams"); ("type", JStr "object");
          ("properties", JObj [("to_email", JObj [("type", JStr "string"); ("format", JStr "email")]);
                               prop "subject" "string"; prop "body" "string"]);
          ("required", JArr [JStr "to_email"; JStr "subject"; JStr "body"])]
  | SummarizeParams =>
    JObj [("title", JStr "SummarizeParams"); ("type", JStr "object");
          ("properties", JObj [("articles", JObj [("type", JStr "array"); ("items", JObj [("type", JStr "object")])])]);
          ("required", JArr [JStr "articles"])]
  | SmartNewsEmailParams =>
    JObj [("title", JStr "SmartNewsEmailParams"); ("type", JStr "object");
          ("properties", JObj [prop "date" "string";
                               ("email", JObj [("type", JStr "string"); ("format", JStr "email")]);
                               ("topics", JObj [("type", JStr "array"); ("items", JObj [("$ref", JStr "#/definitions/TopicCount")])])]);
          ("required", JArr [JStr "date"; JStr "email"; JStr "topics"])]
  end.

Definition tool_meta (name descr : string) (m : param_model) : json :=
  JObj [("name", JStr name); ("description", JStr descr); ("params_schema", model_schema m)].

Definition TOOLS_METADATA : list (string * json) :=
  [("fetch_news", tool_meta "fetch_news" "Fetch news articles" FetchNewsParams);
   ("summarize_articles", tool_meta "summarize_articles" "Summarize articles with OpenAI" SummarizeParams);
   ("send_email", tool_meta "send_email" "Send HTML email via SMTP" SendEmailParams);
   ("smart_news_email", tool_meta "smart_news_email"
      "Fetch multiple topics, summarize, save HTML, and send email" SmartNewsEmailParams)].

Fixpoint lookup {A} (tbl : list (string * A)) (k : string) : option A :=
  match tbl with
  | [] => None
  | (k', v) :: rest => if String.eqb k k' then Some v else lookup rest k
  end.

(** ** Endpoints. *)
Definition rpc_error (req_id : json) (code : Z) (msg : string) : json :=
  JObj [("jsonrpc", JStr "2.0"); ("id", req_id);
        ("error", JObj [("code", JInt code); ("message", JStr msg)])].

Definition rpc_error_data (req_id : json) (code : Z) (msg : string) (data : json) : json :=
  JObj [("jsonrpc", JStr "2.0"); ("id", req_id);
        ("error", JObj [("code", JInt code); ("message", JStr msg); ("data", data)])].

Definition rpc_result (req_id : json) (result : json) : json :=
  JObj [("jsonrpc", JStr "2.0"); ("id", req_id); ("result", result)].

(** [check_api_key(x_mcp_api_key)]; a missing header is [None]. *)
Definition check_api_key (x_mcp_api_key : option string) : M unit :=
  c <- get_config ;;
  match x_mcp_api_key with
  | None => raise (HTTPException 401)
  | Some k => if String.eqb k "" || negb (String.eqb k (MCP_API_KEY c))
              then raise (HTTPException 401) else ret tt
  end.

(** FastAPI turns an uncaught [HTTPException] into its status and any
    other uncaught exception into a 500 response. *)
Definition serve (m : M json) : M http_resp :=
  fun s => match m s with
           | (s', Ok j) => (s', Ok (HttpJson j))
           | (s', Raise (HTTPException code)) => (s', Ok (HttpError code))
           | (s', Raise _) => (s', Ok (HttpError 500))
           end.

Definition get_registry_body (x_mcp_api_key : option string) : M json :=
  check_api_key x_mcp_api_key ;;;
  ret (JObj [("tools", JObj TOOLS_METADATA)]).

(** [GET /mcp/registry] *)
Definition get_registry (x_mcp_api_key : option string) : M http_resp :=
  serve (get_registry_body x_mcp_api_key).

Section Dispatch.

Variable w : world.

(** The [try] block of [handle_jsonrpc]. *)
Definition invoke_tool (tool_name : string) (params : json) : M json :=
  m <- match lookup TOOLS_MODELS tool_name with
       | Some m => ret m
       | None => raise (OtherError "KeyError")
       end ;;
  model <- instantiate w m params ;;
  match lookup (TOOLS_IMPL w) tool_name with
  | Some impl => impl model
  | None => raise (OtherError "KeyError")
  end.

(** The two [except] clauses of [handle_jsonrpc]. *)
Definition rpc_except (req_id : json) (e : exn) : json :=
  match e with
  | ValidationError data => rpc_error_data req_id (-32602) "Invalid params" data
  | HTTPException code => rpc_error_data req_id (-32000) "Server error" (JInt code)
  | OtherError what => rpc_error_data req_id (-32000) "Server error" (JStr what)
  end.

(** [handle_jsonrpc] from [payload.get("id")] on. *)
Definition dispatch_payload (payload : json) : M json :=
  match payload with
  | JObj kvs =>
    let req_id := dict_get_or kvs "id" JNull in
    let method := dict_get_or kvs "method" JNull in
    let params := dict_get_or kvs "params" (JObj []) in
    if negb (truthy method) then ret (rpc_error req_id (-32601) "Method not found")
    else match method with
         | JStr mth =>
           if negb (String.prefix "tool." mth) then ret (rpc_error req_id (-32601) "Method not found")
           else match after_first_dot mth with
                | None => raise (OtherError "IndexError")
                | Some tool_name =>
                  match lookup (TOOLS_IMPL w) tool_name with
                  | None => ret (rpc_error req_id (-32601) "Tool not found")
                  | Some _ =>
                    try_catch
                      (result <- invoke_tool tool_name params ;; ret (rpc_result req_id result))
                      (fun e => ret (rpc_except req_id e))
                  end
                end
         | _ => raise (OtherError "AttributeError: no attribute 'startswith'")
         end
  | _ => raise (OtherError "AttributeError: no attribute 'get'")
  end.

Definition handle_jsonrpc_body (x_mcp_api_key : option string) (request : option json) : M json :=
  check_api_key x_mcp_api_key ;;;
  payload <- match request with
             | Some p => ret p
             | None => raise (OtherError "JSONDecodeError")
             end ;;
  dispatch_payload payload.

(** [POST /jsonrpc]; [request] is the decoded body, [None] when it is not JSON. *)
Definition handle_jsonrpc (x_mcp_api_key : option string) (request : option json) : M http_resp :=
  serve (handle_jsonrpc_body x_mcp_api_key request).

End Dispatch.

(** The error code of a JSON-RPC response, if it carries one. *)
Definition resp_error_code (r : http_resp) : option json :=
  match r with
  | HttpJson (JObj kvs) =>
    match dict_get kvs "error" with
    | Some (JObj e) => dict_get e "code"
    | _ => None
    end
  | _ => None
  end.

(** ** A concrete deployment, used to run the model on sample requests:
    the news API knows one article about "Sports" and nothing else, the
    chat model answers with a fixed summary, SMTP and the file system
    accept everything, and pydantic coerces nothing beyond the exact
    JSON types. *)
Definition sample_world : world := mkWorld
  (fun ps => match dict_get ps "q" with
             | Some (JStr "Sports") => Some (JObj [("articles", JArr [JObj [("title", JStr "Match")]])])
             | _ => Some (JObj [("articles", JArr [])])
             end)
  (fun _ _ => Some "  <h2>Match</h2> ")
  (fun _ _ _ _ => true)
  (fun _ => true)
  (fun j => match j with JStr s => s | JNull => "None" | _ => "" end)
  (fun _ => None)
  (fun _ => None)
  (fun e => Some e).

Definition sample_config : config :=
  mkConfig (Some "sk-test") (Some "news-test") (Some "bot@example.com") (Some "pw")
           "smtp.example.com" 465 "secret".

Definition sample_config_nokey : config :=
  mkConfig None (Some "news-test") (Some "bot@example.com") (Some "pw")
           "smtp.example.com" 465 "secret".

Definition sample_state : st := mkSt (mkServer sample_config []) [].
Definition sample_state_nokey : st := mkSt (mkServer sample_config_nokey []) [].

(** A JSON-RPC envelope: ["jsonrpc": "2.0"], the request's id, and
    exactly one of ["result"] and ["error"]. *)
Definition envelope (req_id : json) (body : list (string * json)) : Prop :=
  dict_get body "jsonrpc" = Some (JStr "2.0") /\
  dict_get body "id" = Some req_id /\
  match dict_get body "result", dict_get body "error" with
  | Some _, None | None, Some _ => True
  | _, _ => False
  end.

(** Outcome of the handler as the [try]/[except] of [handle_jsonrpc]
    reports it. *)
Definition rpc_wrap (req_id : json) (o : outcome json) : json :=
  match o with
  | Ok r => rpc_result req_id r
  | Raise e => rpc_except req_id e
  end.

(** What one topic entry contributes: its query, its count and the items
    taken from the news API's answer. *)
Definition topic_fetched (w : world) (c : config) (date : string)
  (t : json) (qci : json * json * list json) : Prop :=
  let '(q, cnt, items) := qci in
  exists kvs, t = JObj kvs /\ dict_get kvs "topic" = Some q /\
    cnt = dict_get_or kvs "count" (JInt 5) /\
    exists body, news_api w (fetch_news_params c q date cnt) = Some (JObj body) /\
      iter_items (dict_get_or body "articles" (JArr [])) = Some items.

Definition topic_items (qci : json * json * list json) : list json :=
  let '(_, _, items) := qci in items.

Definition topic_request (c : config) (date : string) (qci : json * json * list json) : event :=
  let '(q, cnt, _) := qci in ENewsGet NEWS_API_URL (fetch_news_params c q date cnt).

Definition TOOL_NAMES : list string :=
  ["fetch_news"; "summarize_articles"; "send_email"; "smart_news_email"].

Definition sample_bad_request : json :=
  JObj [("id", JInt 1); ("method", JStr "tool.fetch_news");
        ("params", JObj [("topic", JStr "Sports")])].

Definition sample_topics : list json :=
  [JObj [("topic", JStr "Sports"); ("count", JInt 2)]; JObj [("topic", JStr "Crime")]].

(** ** The client script (src/run.py) *)

Definition MCP_URL : string := "http://localhost:8000/jsonrpc".

(** [call_tool(method, params, req_id)] posting to the server modelled
    above.  The client's [X-MCP-API-KEY] header is its own [MCP_KEY]
    ([requests] leaves out a header whose value is [None]); the server is
    reachable, so the answer is what [handle_jsonrpc] produces.
    [raise_for_status] raises on the 401 and 500 answers, and
    [r.json().get("result")] is [None] when the body has no "result". *)
Definition call_tool (w : world) (MCP_KEY : option string) (method : string) (params : json)
  (req_id : json) : M json :=
  let payload := JObj [("jsonrpc", JStr "2.0"); ("id", req_id);
                       ("method", JStr ("tool." ++ method)); ("params", params)] in
  r <- handle_jsonrpc w MCP_KEY (Some payload) ;;
  match r with
  | HttpError _ => raise (OtherError "requests.HTTPError")
  | HttpJson (JObj body) => ret (dict_get_or body "result" JNull)
  | HttpJson _ => raise (OtherError "AttributeError")
  end.

(** [m] never raises [OtherError msg]. *)
Definition not_raising {A} (msg : string) (m : M A) : Prop :=
  forall s, snd (m s) <> Raise (OtherError msg).

Definition is_news_request (e : event) : Prop :=
  match e with ENewsGet _ _ => True | _ => False end.

(** The field names each parameter model reads. *)
Definition model_fields (m : param_model) : list string :=
  match m with
  | FetchNewsParams => ["topic"; "date"; "count"]
  | SendEmailParams => ["to_email"; "subject"; "body"]
  | SummarizeParams => ["articles"]
  | SmartNewsEmailParams => ["date"; "email"; "topics"]
  end.

(** [m] keeps the server state and makes no external call other than
    news-API requests. *)
Definition news_only {A} (m : M A) : Prop :=
  forall s, srv (fst (m s)) = srv s /\
    exists evs, log (fst (m s)) = (log s ++ evs)%list /\ Forall is_news_request evs.

(** The sample deployment with an SMTP server that refuses every
    message, and one where [open(path, "w")] always fails. *)
Definition sample_world_smtp_down : world :=
  mkWorld (news_api sample_world) (chat sample_world) (fun _ _ _ _ => false)
          (can_open sample_world) (py_str sample_world) (str_lax sample_world)
          (int_lax sample_world) (email_check sample_world).

Definition sample_world_readonly : world :=
  mkWorld (news_api sample_world) (chat sample_world) (smtp_ok sample_world)
          (fun _ => false) (py_str sample_world) (str_lax sample_world)
          (int_lax sample_world) (email_check sample_world).

(** A news-API request as [fetch_news_impl] sends it: to NEWS_API_URL,
    in English, with the configured key (none when it is unset). *)
Definition news_query_ok (c : config) (e : event) : Prop :=
  match e with
  | ENewsGet url ps => url = NEWS_API_URL /\ dict_get ps "language" = Some (JStr "en") /\
                       dict_get ps "apiKey" = option_map JStr (NEWS_API_KEY c)
  | _ => True
  end.

(** [m] keeps the configuration and every news request it makes is well formed. *)
Definition queries_ok {A} (m : M A) : Prop :=
  forall s, cfg (srv (fst (m s))) = cfg (srv s) /\
    exists evs, log (fst (m s)) = (log s ++ evs)%list /\ Forall (news_query_ok (cfg (srv s))) evs.

(** The request the loop of [smart_news_email_impl] makes for a topic
    entry, if the entry gets that far: a dict with a "topic" key. *)
Definition entry_request (c : config) (date : string) (t : json) : option event :=
  match t with
  | JObj kvs =>
    match dict_get kvs "topic" with
    | Some q => Some (ENewsGet NEWS_API_URL
                        (fetch_news_params c q date (dict_get_or kvs "count" (JInt 5))))
    | None => None
    end
  | _ => None
  end.

(** * Frame properties of the monad *)

Definition keeps_srv {A} (m : M A) : Prop := forall s, srv (fst (m s)) = srv s.
Definition keeps_cfg {A} (m : M A) : Prop := forall s, cfg (srv (fst (m s))) = cfg (srv s).
(** [m] never raises pydantic's [ValidationError]. *)
Definition no_verr {A} (m : M A) : Prop := forall s d, snd (m s) <> Raise (ValidationError d).

Lemma keeps_srv_cfg {A} (m : M A) : keeps_srv m -> keeps_cfg m.
Proof. intros H s; now rewrite H. Qed.

Lemma ret_keeps_srv {A} (a : A) : keeps_srv (ret a).
Proof. intro s; reflexivity. Qed.
Lemma raise_keeps_srv {A} e : keeps_srv (@raise A e).
Proof. intro s; reflexivity. Qed.
Lemma emit_keeps_srv e : keeps_srv (emit e).
Proof. intro s; reflexivity. Qed.
Lemma get_config_keeps_srv : keeps_srv get_config.
Proof. intro s; reflexivity. Qed.

Lemma bind_keeps_srv {A B} (m : M A) (k : A -> M B) :
  keeps_srv m -> (forall a, keeps_srv (k a)) -> keeps_srv (bind m k).
Proof.
  intros Hm Hk s; unfold bind. specialize (Hm s).
  destruct (m s) as [s1 [a|e]]; simpl in *; [rewrite Hk|]; exact Hm.
Qed.

Lemma bind_keeps_cfg {A B} (m : M A) (k : A -> M B) :
  keeps_cfg m -> (forall a, keeps_cfg (k a)) -> keeps_cfg (bind m k).
Proof.
  intros Hm Hk s; unfold bind. specialize (Hm s).
  destruct (m s) as [s1 [a|e]]; simpl in *; [rewrite Hk|]; exact Hm.
Qed.

Lemma ret_no_verr {A} (a : A) : no_verr (ret a).
Proof. intros s d; discriminate. Qed.
Lemma emit_no_verr e : no_verr (emit e).
Proof. intros s d; discriminate. Qed.
Lemma get_config_no_verr : no_verr get_config.
Proof. intros s d; discriminate. Qed.
Lemma raise_other_no_verr {A} w : no_verr (@raise A (OtherError w)).
Proof. intros s d; discriminate. Qed.

Lemma bind_no_verr {A B} (m : M A) (k : A -> M B) :
  no_verr m -> (forall a, no_verr (k a)) -> no_verr (bind m k).
Proof.
  intros Hm Hk s d; unfold bind. specialize (Hm s d).
  destruct (m s) as [s1 [a|e]]; simpl in *; [apply Hk|].
  intro E; inversion E; subst; apply Hm; reflexivity.
Qed.

Create HintDb mframe.
#[export] Hint Resolve ret_keeps_srv raise_keeps_srv emit_keeps_srv get_config_keeps_srv
  bind_keeps_srv bind_keeps_cfg keeps_srv_cfg
  ret_no_verr emit_no_verr get_config_no_verr raise_other_no_verr bind_no_verr : mframe.

(** Split the monadic structure, then the [match]es on oracle answers. *)
Ltac mframe :=
  repeat first
    [ progress (eauto with mframe)
    | apply bind_keeps_srv; [|intro]
    | apply bind_no_verr; [|intro]
    | match goal with
      | |- keeps_srv (match ?x with _ => _ end) => destruct x
      | |- no_verr (match ?x with _ => _ end) => destruct x
      | |- keeps_srv (if ?x then _ else _) => destruct x
      | |- no_verr (if ?x then _ else _) => destruct x
      end ].

Section Handlers.

Variable w : world.

Lemma fetch_news_impl_keeps_srv t d c : keeps_srv (fetch_news_impl w t d c).
Proof. unfold fetch_news_impl. mframe. Qed.

Lemma summarize_articles_impl_keeps_srv arts : keeps_srv (summarize_articles_impl w arts).
Proof. unfold summarize_articles_impl. mframe. Qed.

Lemma send_email_impl_keeps_srv t sj b : keeps_srv (send_email_impl w t sj b).
Proof. unfold send_email_impl. mframe. Qed.

Lemma subscript_keeps_srv t k : keeps_srv (subscript t k).
Proof. unfold subscript. mframe. Qed.

Lemma py_iter_keeps_srv j : keeps_srv (py_iter j).
Proof. unfold py_iter. mframe. Qed.

Lemma fetch_topics_keeps_srv d ts acc : keeps_srv (fetch_topics w d ts acc).
Proof.
  revert acc; induction ts as [|t ts IH]; intro acc; simpl.
  - apply ret_keeps_srv.
  - apply bind_keeps_srv; [apply subscript_keeps_srv|intro].
    apply bind_keeps_srv; [apply fetch_news_impl_keeps_srv|intro].
    apply bind_keeps_srv; [apply py_iter_keeps_srv|intro]. apply IH.
Qed.

Lemma write_file_m_keeps_cfg p c : keeps_cfg (write_file_m w p c).
Proof. intro s; unfold write_file_m; destruct (can_open w p); reflexivity. Qed.

Lemma fetch_news_impl_no_verr t d c : no_verr (fetch_news_impl w t d c).
Proof. unfold fetch_news_impl. mframe. Qed.

Lemma summarize_articles_impl_no_verr arts : no_verr (summarize_articles_impl w arts).
Proof. unfold summarize_articles_impl. mframe. Qed.

Lemma send_email_impl_no_verr t sj b : no_verr (send_email_impl w t sj b).
Proof. unfold send_email_impl. mframe. Qed.

Lemma fetch_topics_no_verr d ts acc : no_verr (fetch_topics w d ts acc).
Proof.
  revert acc; induction ts as [|t ts IH]; intro acc; simpl.
  - apply ret_no_verr.
  - apply bind_no_verr; [unfold subscript; mframe|intro].
    apply bind_no_verr; [apply fetch_news_impl_no_verr|intro].
    apply bind_no_verr; [unfold py_iter; mframe|intro]. apply IH.
Qed.

Lemma write_file_m_no_verr p c : no_verr (write_file_m w p c).
Proof. intros s d; unfold write_file_m; destruct (can_open w p); discriminate. Qed.

Lemma smart_news_email_impl_no_verr d e ts : no_verr (smart_news_email_impl w d e ts).
Proof.
  unfold smart_news_email_impl.
  apply bind_no_verr; [apply fetch_topics_no_verr|intro].
  apply bind_no_verr; [apply summarize_articles_impl_no_verr|intro].
  apply bind_no_verr; [apply write_file_m_no_verr|intro].
  apply bind_no_verr; [apply send_email_impl_no_verr|intro]. apply ret_no_verr.
Qed.

(** No registered handler raises [ValidationError]. *)
Lemma tools_impl_no_verr name impl a :
  lookup (TOOLS_IMPL w) name = Some impl -> no_verr (impl a).
Proof.
  unfold TOOLS_IMPL; simpl; intro H.
  destruct (String.eqb name "fetch_news");
    [injection H as <-; destruct a; try apply fetch_news_impl_no_verr; apply raise_other_no_verr|].
  destruct (String.eqb name "summarize_articles");
    [injection H as <-; destruct a; try apply raise_other_no_verr;
     apply bind_no_verr; [apply summarize_articles_impl_no_verr|intro; apply ret_no_verr]|].
  destruct (String.eqb name "send_email");
    [injection H as <-; destruct a; try apply send_email_impl_no_verr; apply raise_other_no_verr|].
  destruct (String.eqb name "smart_news_email");
    [injection H as <-; destruct a; try apply smart_news_email_impl_no_verr; apply raise_other_no_verr|].
  discriminate.
Qed.

End Handlers.

(** * Claims *)

Lemma as_dicts_all_dicts (arts : list json) :
  Forall (fun a => exists kvs, a = JObj kvs) arts -> exists ds, as_dicts arts = Some ds.
Proof.
  induction 1 as [|a arts [kvs ->] _ [ds IH]]; simpl; [eauto|].
  rewrite IH; simpl; eauto.
Qed.

(** C10: [summarize_articles] on the empty list returns exactly
    "<p>No news found for the selected topics/date.</p>" and makes no
    call (state and log unchanged); on a non-empty list of dicts with no
    OpenAI key configured it returns exactly "OpenAI API key missing",
    again without any call. *)
Theorem summarize_articles_short_circuit (w : world) (s : st) (articles : list json) :
  summarize_articles_impl w [] s = (s, Ok "<p>No news found for the selected topics/date.</p>") /\
  (articles <> [] ->
   Forall (fun a => exists kvs, a = JObj kvs) articles ->
   client_present (cfg (srv s)) = false ->
   summarize_articles_impl w articles s = (s, Ok "OpenAI API key missing")).
Proof.
  split; [reflexivity|].
  intros Hne Hd Hk.
  destruct (as_dicts_all_dicts _ Hd) as [ds Hds].
  unfold summarize_articles_impl.
  destruct articles as [|a rest]; [congruence|].
  rewrite Hds. unfold bind, get_config. rewrite Hk. reflexivity.
Qed.

Lemma summarize_articles_short_circuit_witness :
  ([JObj [("title", JStr "Match")]] <> [] /\
   Forall (fun a => exists kvs, a = JObj kvs) [JObj [("title", JStr "Match")]] /\
   client_present (cfg (srv sample_state_nokey)) = false) /\
  summarize_articles_impl sample_world [JObj [("title", JStr "Match")]] sample_state_nokey
    = (sample_state_nokey, Ok "OpenAI API key missing").
Proof.
  assert (H1 : [JObj [("title", JStr "Match")]] <> []) by discriminate.
  assert (H2 : Forall (fun a => exists kvs, a = JObj kvs) [JObj [("title", JStr "Match")]])
    by (repeat constructor; eauto).
  assert (H3 : client_present (cfg (srv sample_state_nokey)) = false) by reflexivity.
  split; [auto|].
  exact (proj2 (summarize_articles_short_circuit sample_world sample_state_nokey _) H1 H2 H3).
Defined.

(** C3: both endpoints check the API key first.  With a missing header or
    one that differs from the configured [MCP_API_KEY], [POST /jsonrpc]
    and [GET /mcp/registry] answer 401 whatever the body, with the state
    and the call log unchanged; the matching key (non-empty, as the
    start-up guard ensures) passes the check without touching anything. *)
Theorem api_key_check (w : world) (hdr : option string) (request : option json) (s : st) :
  MCP_API_KEY (cfg (srv s)) <> "" ->
  ((hdr = None \/ exists k, hdr = Some k /\ k <> MCP_API_KEY (cfg (srv s))) ->
   handle_jsonrpc w hdr request s = (s, Ok (HttpError 401)) /\
   get_registry hdr s = (s, Ok (HttpError 401))) /\
  (hdr = Some (MCP_API_KEY (cfg (srv s))) -> check_api_key hdr s = (s, Ok tt)).
Proof.
  intros Hne; split.
  - intros Hbad.
    assert (Hc : check_api_key hdr s = (s, Raise (HTTPException 401))).
    { unfold check_api_key, bind, get_config.
      destruct Hbad as [-> | [k [-> Hk]]]; [reflexivity|].
      destruct (String.eqb_spec k (MCP_API_KEY (cfg (srv s)))) as [E|E]; [contradiction|].
      rewrite orb_true_r. reflexivity. }
    unfold handle_jsonrpc, handle_jsonrpc_body, get_registry, get_registry_body, serve, bind.
    rewrite Hc. split; reflexivity.
  - intros ->. unfold check_api_key, bind, get_config.
    rewrite String.eqb_refl.
    destruct (String.eqb_spec (MCP_API_KEY (cfg (srv s))) "") as [E|E]; [contradiction|].
    reflexivity.
Qed.

Lemma api_key_check_witness :
  MCP_API_KEY (cfg (srv sample_state)) <> "" /\
  handle_jsonrpc sample_world (Some "wrong") None sample_state = (sample_state, Ok (HttpError 401)) /\
  check_api_key (Some "secret") sample_state = (sample_state, Ok tt).
Proof.
  assert (H : MCP_API_KEY (cfg (srv sample_state)) <> "") by discriminate.
  split; [exact H|split].
  - apply (proj1 (api_key_check sample_world (Some "wrong") None sample_state H)).
    right; exists "wrong"; split; [reflexivity|discriminate].
  - apply (proj2 (api_key_check sample_world (Some "secret") None sample_state H)). reflexivity.
Defined.

(** C6: [fetch_news] sends one request to the news API whose query
    carries the topic string as [q], the count as [pageSize] and the date
    as both [from] and [to]; it leaves the server state unchanged, and on
    a successful object response returns its [articles] field, or the
    empty list when the field is absent. *)
Theorem fetch_news_echoes_params (w : world) (topic date : string) (count : Z) (s : st) :
  let ps := fetch_news_params (cfg (srv s)) (JStr topic) date (JInt count) in
  let r := fetch_news_impl w (JStr topic) date (JInt count) s in
  log (fst r) = (log s ++ [ENewsGet NEWS_API_URL ps])%list /\
  srv (fst r) = srv s /\
  dict_get ps "q" = Some (JStr topic) /\
  dict_get ps "pageSize" = Some (JInt count) /\
  dict_get ps "from" = Some (JStr date) /\
  dict_get ps "to" = Some (JStr date) /\
  (forall body, news_api w ps = Some (JObj body) ->
     (forall a, dict_get body "articles" = Some a -> snd r = Ok a) /\
     (dict_get body "articles" = None -> snd r = Ok (JArr []))).
Proof.
  intros ps r.
  assert (Hr : r = match news_api w ps with
                   | None => (mkSt (srv s) (log s ++ [ENewsGet NEWS_API_URL ps])%list,
                              Raise (OtherError "requests.HTTPError"))
                   | Some (JObj body) => (mkSt (srv s) (log s ++ [ENewsGet NEWS_API_URL ps])%list,
                                          Ok (dict_get_or body "articles" (JArr [])))
                   | Some _ => (mkSt (srv s) (log s ++ [ENewsGet NEWS_API_URL ps])%list,
                                Raise (OtherError "AttributeError"))
                   end).
  { subst r ps. unfold fetch_news_impl, bind, get_config, emit, ret, raise.
    destruct (news_api w _) as [[]|]; reflexivity. }
  split; [rewrite Hr; destruct (news_api w ps) as [[]|]; reflexivity|].
  split; [rewrite Hr; destruct (news_api w ps) as [[]|]; reflexivity|].
  split; [unfold ps, fetch_news_params; reflexivity|].
  split; [unfold ps, fetch_news_params; destruct (NEWS_API_KEY (cfg (srv s))); reflexivity|].
  split; [unfold ps, fetch_news_params; destruct (NEWS_API_KEY (cfg (srv s))); reflexivity|].
  split; [unfold ps, fetch_news_params; destruct (NEWS_API_KEY (cfg (srv s))); reflexivity|].
  intros body Hb; rewrite Hr, Hb; unfold dict_get_or; split.
  - intros a Ha; now rewrite Ha.
  - intros Ha; now rewrite Ha.
Qed.

Lemma fetch_news_echoes_params_witness :
  news_api sample_world (fetch_news_params sample_config (JStr "Sports") "2025-10-02" (JInt 2))
    = Some (JObj [("articles", JArr [JObj [("title", JStr "Match")]])]) /\
  snd (fetch_news_impl sample_world (JStr "Sports") "2025-10-02" (JInt 2) sample_state)
    = Ok (JArr [JObj [("title", JStr "Match")]]).
Proof.
  assert (Hb : news_api sample_world (fetch_news_params sample_config (JStr "Sports") "2025-10-02" (JInt 2))
                 = Some (JObj [("articles", JArr [JObj [("title", JStr "Match")]])])) by reflexivity.
  split; [exact Hb|].
  destruct (fetch_news_echoes_params sample_world "Sports" "2025-10-02" 2 sample_state)
    as (_ & _ & _ & _ & _ & _ & H).
  exact (proj1 (H _ Hb) _ eq_refl).
Defined.

(** C7: the handler, model and metadata tables have the same four keys,
    in the same order; each metadata entry carries its own name, a
    description and the schema of the model the dispatcher validates
    that tool's parameters against; [GET /mcp/registry] with the right
    key returns exactly that metadata table. *)
Theorem registry_consistent (w : world) (s : st) :
  map fst (TOOLS_IMPL w) = TOOL_NAMES /\
  map fst TOOLS_MODELS = TOOL_NAMES /\
  map fst TOOLS_METADATA = TOOL_NAMES /\
  (forall k meta, lookup TOOLS_METADATA k = Some meta ->
     exists m descr, lookup TOOLS_MODELS k = Some m /\
       meta = JObj [("name", JStr k); ("description", JStr descr); ("params_schema", model_schema m)]) /\
  (MCP_API_KEY (cfg (srv s)) <> "" ->
   get_registry (Some (MCP_API_KEY (cfg (srv s)))) s
     = (s, Ok (HttpJson (JObj [("tools", JObj TOOLS_METADATA)])))).
Proof.
  split; [reflexivity|]. split; [reflexivity|]. split; [reflexivity|]. split.
  - intros k meta. unfold TOOLS_METADATA, TOOLS_MODELS, tool_meta; simpl.
    destruct (String.eqb_spec k "fetch_news") as [->|_];
      [intro H; injection H as <-; eauto|].
    destruct (String.eqb_spec k "summarize_articles") as [->|_];
      [intro H; injection H as <-; eauto|].
    destruct (String.eqb_spec k "send_email") as [->|_];
      [intro H; injection H as <-; eauto|].
    destruct (String.eqb_spec k "smart_news_email") as [->|_];
      [intro H; injection H as <-; eauto|].
    discriminate.
  - intros Hne. unfold get_registry, get_registry_body, serve, bind.
    replace (check_api_key (Some (MCP_API_KEY (cfg (srv s)))) s) with (s, @Ok unit tt).
    + reflexivity.
    + symmetry. unfold check_api_key, bind, get_config.
      rewrite String.eqb_refl.
      destruct (String.eqb_spec (MCP_API_KEY (cfg (srv s))) "") as [E|E]; [contradiction|].
      reflexivity.
Qed.

Lemma registry_consistent_witness :
  MCP_API_KEY (cfg (srv sample_state)) <> "" /\
  get_registry (Some "secret") sample_state
    = (sample_state, Ok (HttpJson (JObj [("tools", JObj TOOLS_METADATA)]))).
Proof.
  assert (H : MCP_API_KEY (cfg (srv sample_state)) <> "") by discriminate.
  split; [exact H|].
  exact (proj2 (proj2 (proj2 (proj2 (registry_consistent sample_world sample_state)))) H).
Defined.

(** ** Dispatcher lemmas *)

Lemma check_api_key_pass (s : st) :
  MCP_API_KEY (cfg (srv s)) <> "" ->
  check_api_key (Some (MCP_API_KEY (cfg (srv s)))) s = (s, Ok tt).
Proof.
  intros Hne. unfold check_api_key, bind, get_config.
  rewrite String.eqb_refl.
  destruct (String.eqb_spec (MCP_API_KEY (cfg (srv s))) "") as [E|E]; [contradiction|].
  reflexivity.
Qed.

Lemma handle_jsonrpc_payload (w : world) (s : st) (p : json) :
  MCP_API_KEY (cfg (srv s)) <> "" ->
  handle_jsonrpc w (Some (MCP_API_KEY (cfg (srv s)))) (Some p) s = serve (dispatch_payload w p) s.
Proof.
  intros Hne. unfold handle_jsonrpc, handle_jsonrpc_body, serve, bind at 1.
  rewrite (check_api_key_pass s Hne). reflexivity.
Qed.

Lemma after_first_dot_tool (name : string) : after_first_dot ("tool." ++ name) = Some name.
Proof. reflexivity. Qed.

Lemma prefix_tool (m : string) : String.prefix "tool." m = true -> exists name, m = "tool." ++ name.
Proof.
  do 5 (destruct m as [|c m]; [discriminate|];
        cbn -[ascii_dec]; match goal with |- context [ascii_dec ?a c] =>
                 destruct (ascii_dec a c); [subst c|discriminate] end).
  intros _; exists m; reflexivity.
Qed.

Lemma models_impl_keys (w : world) (name : string) :
  (exists m, lookup TOOLS_MODELS name = Some m) <-> (exists impl, lookup (TOOLS_IMPL w) name = Some impl).
Proof.
  unfold TOOLS_MODELS, TOOLS_IMPL; simpl.
  repeat (destruct (String.eqb name _); [split; intros _; eexists; reflexivity|]).
  split; intros [x H]; discriminate.
Qed.

Lemma dispatch_tool (w : world) (s : st) (kvs : list (string * json)) (name : string) impl :
  dict_get_or kvs "method" JNull = JStr ("tool." ++ name) ->
  lookup (TOOLS_IMPL w) name = Some impl ->
  dispatch_payload w (JObj kvs) s =
  try_catch (result <- invoke_tool w name (dict_get_or kvs "params" (JObj [])) ;;
             ret (rpc_result (dict_get_or kvs "id" JNull) result))
            (fun e => ret (rpc_except (dict_get_or kvs "id" JNull) e)) s.
Proof.
  intros Hm Hi. unfold dispatch_payload. cbv zeta. rewrite Hm.
  cbn -[lookup TOOLS_IMPL invoke_tool try_catch bind].
  rewrite Hi. destruct name; reflexivity.
Qed.

Lemma invoke_tool_valid (w : world) (s : st) name m impl pk a :
  lookup TOOLS_MODELS name = Some m -> lookup (TOOLS_IMPL w) name = Some impl ->
  validate w m pk = inr a ->
  invoke_tool w name (JObj pk) s = impl a s.
Proof.
  intros Hm Hi Hv. unfold invoke_tool, bind, instantiate. rewrite Hm.
  cbn -[lookup TOOLS_IMPL validate]. rewrite Hv, Hi. reflexivity.
Qed.

Lemma invoke_tool_invalid (w : world) (s : st) name m pk es :
  lookup TOOLS_MODELS name = Some m -> validate w m pk = inl es ->
  invoke_tool w name (JObj pk) s = (s, Raise (ValidationError (JArr es))).
Proof.
  intros Hm Hv. unfold invoke_tool, bind, instantiate. rewrite Hm. simpl.
  rewrite Hv. reflexivity.
Qed.

Lemma invoke_tool_not_mapping (w : world) (s : st) name m params :
  lookup TOOLS_MODELS name = Some m -> (forall pk, params <> JObj pk) ->
  invoke_tool w name params s = (s, Raise (OtherError "TypeError: argument after ** must be a mapping")).
Proof.
  intros Hm Hp. unfold invoke_tool, bind, instantiate. rewrite Hm. simpl.
  destruct params; try reflexivity. exfalso; eapply Hp; reflexivity.
Qed.

Lemma dispatch_falsy (w : world) (s : st) (kvs : list (string * json)) :
  truthy (dict_get_or kvs "method" JNull) = false ->
  dispatch_payload w (JObj kvs) s = (s, Ok (rpc_error (dict_get_or kvs "id" JNull) (-32601) "Method not found")).
Proof. intros Ht. unfold dispatch_payload. cbv zeta. rewrite Ht. reflexivity. Qed.

Lemma dispatch_not_tool (w : world) (s : st) (kvs : list (string * json)) (mth : string) :
  dict_get_or kvs "method" JNull = JStr mth -> String.prefix "tool." mth = false ->
  dispatch_payload w (JObj kvs) s = (s, Ok (rpc_error (dict_get_or kvs "id" JNull) (-32601) "Method not found")).
Proof.
  intros Hm Hp. unfold dispatch_payload. cbv zeta. rewrite Hm.
  destruct (truthy (JStr mth)); [|reflexivity]. simpl negb. rewrite Hp. reflexivity.
Qed.

Lemma dispatch_unknown_tool (w : world) (s : st) (kvs : list (string * json)) (name : string) :
  dict_get_or kvs "method" JNull = JStr ("tool." ++ name) -> lookup (TOOLS_IMPL w) name = None ->
  dispatch_payload w (JObj kvs) s = (s, Ok (rpc_error (dict_get_or kvs "id" JNull) (-32601) "Tool not found")).
Proof.
  intros Hm Hi. unfold dispatch_payload. cbv zeta. rewrite Hm.
  cbn -[lookup TOOLS_IMPL invoke_tool try_catch bind].
  rewrite Hi. destruct name; reflexivity.
Qed.

Lemma dispatch_nonstring (w : world) (s : st) (kvs : list (string * json)) :
  truthy (dict_get_or kvs "method" JNull) = true ->
  (forall mth, dict_get_or kvs "method" JNull <> JStr mth) ->
  dispatch_payload w (JObj kvs) s = (s, Raise (OtherError "AttributeError: no attribute 'startswith'")).
Proof.
  intros Ht Hs. unfold dispatch_payload. cbv zeta. rewrite Ht. simpl negb.
  destruct (dict_get_or kvs "method" JNull); try reflexivity.
  exfalso; eapply Hs; reflexivity.
Qed.

(** C1: for [POST /jsonrpc] with the right key naming a registered tool,
    params given as a JSON object (or omitted, which means [{}]) that do
    not validate against the tool's model yield the JSON-RPC error
    -32602 "Invalid params" with pydantic's error list; params that are
    not an object (an array, [null], a scalar) yield -32000 "Server
    error".  In both cases the handler is not run: the server state and
    the external-call log are unchanged. *)
Theorem invalid_params_rejected (w : world) (s : st) (kvs : list (string * json))
  (name : string) (m : param_model) :
  MCP_API_KEY (cfg (srv s)) <> "" ->
  dict_get_or kvs "method" JNull = JStr ("tool." ++ name) ->
  lookup TOOLS_MODELS name = Some m ->
  let key := Some (MCP_API_KEY (cfg (srv s))) in
  let req_id := dict_get_or kvs "id" JNull in
  let params := dict_get_or kvs "params" (JObj []) in
  (forall pk es, params = JObj pk -> validate w m pk = inl es ->
     handle_jsonrpc w key (Some (JObj kvs)) s
       = (s, Ok (HttpJson (rpc_error_data req_id (-32602) "Invalid params" (JArr es))))) /\
  ((forall pk, params <> JObj pk) ->
     handle_jsonrpc w key (Some (JObj kvs)) s
       = (s, Ok (HttpJson (rpc_error_data req_id (-32000) "Server error"
                             (JStr "TypeError: argument after ** must be a mapping"))))).
Proof.
  intros Hne Hm Hmod key req_id params.
  destruct (proj1 (models_impl_keys w name) (ex_intro _ m Hmod)) as [impl Hi].
  unfold key; rewrite (handle_jsonrpc_payload w s _ Hne). unfold serve.
  rewrite (dispatch_tool w s kvs name impl Hm Hi). unfold try_catch, bind.
  split.
  - intros pk es Hp Hv. fold params. rewrite Hp.
    rewrite (invoke_tool_invalid w s name m pk es Hmod Hv). reflexivity.
  - intros Hp. fold params.
    rewrite (invoke_tool_not_mapping w s name m params Hmod Hp). reflexivity.
Qed.

Lemma invalid_params_rejected_witness :
  (MCP_API_KEY (cfg (srv sample_state)) <> "" /\
   dict_get_or [("id", JInt 1); ("method", JStr "tool.fetch_news");
                ("params", JObj [("topic", JStr "Sports")])] "method" JNull
     = JStr ("tool." ++ "fetch_news") /\
   lookup TOOLS_MODELS "fetch_news" = Some FetchNewsParams) /\
  handle_jsonrpc sample_world (Some "secret") (Some sample_bad_request) sample_state
    = (sample_state, Ok (HttpJson (rpc_error_data (JInt 1) (-32602) "Invalid params"
                                   (JArr [verr ["date"] "Field required"])))).
Proof.
  assert (H1 : MCP_API_KEY (cfg (srv sample_state)) <> "") by discriminate.
  assert (H2 : dict_get_or [("id", JInt 1); ("method", JStr "tool.fetch_news");
                            ("params", JObj [("topic", JStr "Sports")])] "method" JNull
                 = JStr ("tool." ++ "fetch_news")) by reflexivity.
  assert (H3 : lookup TOOLS_MODELS "fetch_news" = Some FetchNewsParams) by reflexivity.
  split; [auto|].
  exact (proj1 (invalid_params_rejected sample_world sample_state _ "fetch_news" FetchNewsParams H1 H2 H3)
           [("topic", JStr "Sports")] [verr ["date"] "Field required"] eq_refl eq_refl).
Defined.

(** The claim's own reading fails on positional (array) params: the
    error is -32000, not -32602. *)
Lemma array_params_server_error :
  handle_jsonrpc sample_world (Some "secret")
    (Some (JObj [("id", JInt 1); ("method", JStr "tool.fetch_news");
                 ("params", JArr [JStr "Sports"; JStr "2025-10-02"])])) sample_state
  = (sample_state, Ok (HttpJson (rpc_error_data (JInt 1) (-32000) "Server error"
                                   (JStr "TypeError: argument after ** must be a mapping")))) /\
  resp_error_code (HttpJson (rpc_error_data (JInt 1) (-32000) "Server error"
                               (JStr "TypeError: argument after ** must be a mapping")))
    <> Some (JInt (-32602)).
Proof. split; [vm_compute; reflexivity | discriminate]. Qed.

Lemma rpc_error_envelope id c m : envelope id [("jsonrpc", JStr "2.0"); ("id", id);
  ("error", JObj [("code", JInt c); ("message", JStr m)])].
Proof. repeat split. Qed.

Lemma rpc_error_data_envelope id c m d : envelope id [("jsonrpc", JStr "2.0"); ("id", id);
  ("error", JObj [("code", JInt c); ("message", JStr m); ("data", d)])].
Proof. repeat split. Qed.

Lemma rpc_result_envelope id r : envelope id [("jsonrpc", JStr "2.0"); ("id", id); ("result", r)].
Proof. repeat split. Qed.

Lemma rpc_except_envelope id e : exists body, rpc_except id e = JObj body /\ envelope id body.
Proof. destruct e; eexists; split; try reflexivity; apply rpc_error_data_envelope. Qed.

(** C2: for [POST /jsonrpc] with the right key whose body is a JSON
    object and whose ["method"] is absent, falsy or a string, the answer
    is a JSON-RPC envelope carrying ["jsonrpc": "2.0"], the request's id
    ([null] when absent) and exactly one of ["result"] and ["error"]; for
    a registered tool with valid params the handler's return value is the
    result, and any exception the handler raises becomes the error
    -32000 "Server error" instead of propagating.  A body that is not
    JSON, a JSON body that is not an object, and an object whose
    ["method"] is truthy but not a string make the endpoint fail with
    HTTP 500 instead, with nothing run. *)
Theorem rpc_envelope (w : world) (s : st) (kvs : list (string * json)) :
  MCP_API_KEY (cfg (srv s)) <> "" ->
  let key := Some (MCP_API_KEY (cfg (srv s))) in
  let req_id := dict_get_or kvs "id" JNull in
  let method := dict_get_or kvs "method" JNull in
  let params := dict_get_or kvs "params" (JObj []) in
  ((truthy method = false \/ exists mth, method = JStr mth) ->
   exists s' body, handle_jsonrpc w key (Some (JObj kvs)) s = (s', Ok (HttpJson (JObj body))) /\
                   envelope req_id body) /\
  (forall name impl m pk a,
     method = JStr ("tool." ++ name) -> lookup (TOOLS_IMPL w) name = Some impl ->
     lookup TOOLS_MODELS name = Some m -> params = JObj pk -> validate w m pk = inr a ->
     (forall s' r, impl a s = (s', Ok r) ->
        handle_jsonrpc w key (Some (JObj kvs)) s = (s', Ok (HttpJson (rpc_result req_id r)))) /\
     (forall s' e, impl a s = (s', Raise e) ->
        exists data, handle_jsonrpc w key (Some (JObj kvs)) s
                     = (s', Ok (HttpJson (rpc_error_data req_id (-32000) "Server error" data))))) /\
  (forall request, (forall kvs', request <> Some (JObj kvs')) ->
     handle_jsonrpc w key request s = (s, Ok (HttpError 500))) /\
  (truthy method = true -> (forall mth, method <> JStr mth) ->
     handle_jsonrpc w key (Some (JObj kvs)) s = (s, Ok (HttpError 500))).
Proof.
  intros Hne key req_id method params.
  split; [|split; [|split]].
  - intros Hmeth.
    unfold key; rewrite (handle_jsonrpc_payload w s _ Hne). unfold serve.
    destruct (truthy method) eqn:Ht.
    2:{ rewrite (dispatch_falsy w s kvs Ht). do 2 eexists; split; [reflexivity|].
        apply rpc_error_envelope. }
    destruct Hmeth as [Hf|[mth Hm]]; [congruence|].
    destruct (String.prefix "tool." mth) eqn:Hp.
    2:{ rewrite (dispatch_not_tool w s kvs mth Hm Hp). do 2 eexists; split; [reflexivity|].
        apply rpc_error_envelope. }
    destruct (prefix_tool mth Hp) as [name ->].
    destruct (lookup (TOOLS_IMPL w) name) as [impl|] eqn:Hi.
    2:{ rewrite (dispatch_unknown_tool w s kvs name Hm Hi). do 2 eexists; split; [reflexivity|].
        apply rpc_error_envelope. }
    rewrite (dispatch_tool w s kvs name impl Hm Hi). unfold try_catch, bind.
    destruct (invoke_tool w name (dict_get_or kvs "params" (JObj [])) s) as [s1 [r|e]].
    + do 2 eexists; split; [reflexivity|]. apply rpc_result_envelope.
    + destruct (rpc_except_envelope req_id e) as [body [Hb Henv]].
      exists s1, body. fold req_id. rewrite Hb. split; [reflexivity|exact Henv].
  - intros name impl m pk a Hm Hi Hmod Hp Hv.
    unfold key; rewrite (handle_jsonrpc_payload w s _ Hne). unfold serve.
    rewrite (dispatch_tool w s kvs name impl Hm Hi). unfold try_catch, bind.
    fold params. rewrite Hp, (invoke_tool_valid w s name m impl pk a Hmod Hi Hv).
    split.
    + intros s' r Hr. rewrite Hr. reflexivity.
    + intros s' e He. pose proof (tools_impl_no_verr w name impl a Hi s) as Hnv.
      rewrite He. destruct e as [d|c|what].
      * exfalso. apply (Hnv d). rewrite He. reflexivity.
      * eexists; reflexivity.
      * eexists; reflexivity.
  - intros request Hr. destruct request as [p|].
    + unfold key; rewrite (handle_jsonrpc_payload w s _ Hne). unfold serve, dispatch_payload.
      destruct p as [|b|z|str|l|o]; try reflexivity. exfalso; eapply Hr; reflexivity.
    + unfold handle_jsonrpc, handle_jsonrpc_body, serve, bind at 1.
      unfold key; rewrite (check_api_key_pass s Hne). reflexivity.
  - intros Ht Hs. unfold key; rewrite (handle_jsonrpc_payload w s _ Hne). unfold serve.
    rewrite (dispatch_nonstring w s kvs Ht Hs). reflexivity.
Qed.

Lemma rpc_envelope_witness :
  MCP_API_KEY (cfg (srv sample_state)) <> "" /\
  exists s' body,
    handle_jsonrpc sample_world (Some "secret") (Some sample_bad_request) sample_state
      = (s', Ok (HttpJson (JObj body))) /\ envelope (JInt 1) body.
Proof.
  assert (H1 : MCP_API_KEY (cfg (srv sample_state)) <> "") by discriminate.
  assert (H2 : truthy (dict_get_or [("id", JInt 1); ("method", JStr "tool.fetch_news");
                         ("params", JObj [("topic", JStr "Sports")])] "method" JNull) = false \/
               exists mth, dict_get_or [("id", JInt 1); ("method", JStr "tool.fetch_news");
                             ("params", JObj [("topic", JStr "Sports")])] "method" JNull = JStr mth)
    by (right; eexists; reflexivity).
  split; [exact H1|].
  exact (proj1 (rpc_envelope sample_world sample_state _ H1) H2).
Defined.

(** A well-formed JSON body that is not an object escapes the envelope:
    [payload.get] raises outside the [try] and FastAPI answers 500. *)
Lemma array_body_http_500 :
  handle_jsonrpc sample_world (Some "secret") (Some (JArr [])) sample_state
    = (sample_state, Ok (HttpError 500)).
Proof. vm_compute. reflexivity. Qed.

(** C4: method dispatch is a table lookup.  With the right key and a
    JSON-object body: a falsy ["method"] (absent, [null], [false], [0],
    [""], [[]], [{}]) or a string not starting with "tool." gives -32601
    "Method not found"; "tool.<name>" with <name> not a registry key
    gives -32601 "Tool not found"; in these cases nothing runs (state and
    log unchanged).  A truthy non-string method makes the endpoint fail
    with HTTP 500, again before any handler.  For "tool.<name>" with
    <name> a registry key, the handler run is exactly [TOOLS_IMPL[name]]
    on the validated params. *)
Theorem method_dispatch (w : world) (s : st) (kvs : list (string * json)) :
  MCP_API_KEY (cfg (srv s)) <> "" ->
  let key := Some (MCP_API_KEY (cfg (srv s))) in
  let req_id := dict_get_or kvs "id" JNull in
  let method := dict_get_or kvs "method" JNull in
  let params := dict_get_or kvs "params" (JObj []) in
  (truthy method = false ->
     handle_jsonrpc w key (Some (JObj kvs)) s
       = (s, Ok (HttpJson (rpc_error req_id (-32601) "Method not found")))) /\
  (forall mth, method = JStr mth -> String.prefix "tool." mth = false ->
     handle_jsonrpc w key (Some (JObj kvs)) s
       = (s, Ok (HttpJson (rpc_error req_id (-32601) "Method not found")))) /\
  (forall name, method = JStr ("tool." ++ name) -> lookup (TOOLS_IMPL w) name = None ->
     handle_jsonrpc w key (Some (JObj kvs)) s
       = (s, Ok (HttpJson (rpc_error req_id (-32601) "Tool not found")))) /\
  (truthy method = true -> (forall mth, method <> JStr mth) ->
     handle_jsonrpc w key (Some (JObj kvs)) s = (s, Ok (HttpError 500))) /\
  (forall name impl m pk a,
     method = JStr ("tool." ++ name) -> lookup (TOOLS_IMPL w) name = Some impl ->
     lookup TOOLS_MODELS name = Some m -> params = JObj pk -> validate w m pk = inr a ->
     handle_jsonrpc w key (Some (JObj kvs)) s
       = (fst (impl a s), Ok (HttpJson (rpc_wrap req_id (snd (impl a s)))))).
Proof.
  intros Hne key req_id method params.
  unfold key; rewrite (handle_jsonrpc_payload w s _ Hne). unfold serve.
  split; [intros Ht; now rewrite (dispatch_falsy w s kvs Ht)|].
  split; [intros mth Hm Hp; now rewrite (dispatch_not_tool w s kvs mth Hm Hp)|].
  split; [intros name Hm Hi; now rewrite (dispatch_unknown_tool w s kvs name Hm Hi)|].
  split; [intros Ht Hs; now rewrite (dispatch_nonstring w s kvs Ht Hs)|].
  intros name impl m pk a Hm Hi Hmod Hp Hv.
  rewrite (dispatch_tool w s kvs name impl Hm Hi). unfold try_catch, bind.
  fold params. rewrite Hp, (invoke_tool_valid w s name m impl pk a Hmod Hi Hv).
  destruct (impl a s) as [s' [r|e]]; reflexivity.
Qed.

Lemma method_dispatch_witness :
  MCP_API_KEY (cfg (srv sample_state)) <> "" /\
  handle_jsonrpc sample_world (Some "secret")
    (Some (JObj [("id", JInt 7); ("method", JStr "tool.weather")])) sample_state
  = (sample_state, Ok (HttpJson (rpc_error (JInt 7) (-32601) "Tool not found"))).
Proof.
  assert (H : MCP_API_KEY (cfg (srv sample_state)) <> "") by discriminate.
  split; [exact H|].
  destruct (method_dispatch sample_world sample_state
              [("id", JInt 7); ("method", JStr "tool.weather")] H) as (_ & _ & H3 & _).
  exact (H3 "weather" eq_refl eq_refl).
Defined.

(** A numeric method does not start with "tool.", yet the answer is an
    HTTP 500 failure, not the JSON-RPC error -32601. *)
Lemma numeric_method_http_500 :
  handle_jsonrpc sample_world (Some "secret")
    (Some (JObj [("id", JInt 1); ("method", JInt 5)])) sample_state
    = (sample_state, Ok (HttpError 500)) /\
  resp_error_code (HttpError 500) <> Some (JInt (-32601)).
Proof. split; [vm_compute; reflexivity | discriminate]. Qed.

(** ** The [smart_news_email] pipeline *)

Lemma fetch_news_impl_eq (w : world) t d c (s : st) :
  fetch_news_impl w t d c s =
  let ps := fetch_news_params (cfg (srv s)) t d c in
  (mkSt (srv s) (log s ++ [ENewsGet NEWS_API_URL ps])%list,
   match news_api w ps with
   | None => Raise (OtherError "requests.HTTPError")
   | Some (JObj body) => Ok (dict_get_or body "articles" (JArr []))
   | Some _ => Raise (OtherError "AttributeError")
   end).
Proof.
  unfold fetch_news_impl, bind, get_config, emit, ret, raise. cbv zeta.
  destruct (news_api w _) as [[]|]; reflexivity.
Qed.

(** The loop fetches topic after topic, in list order, and concatenates
    their articles in that order. *)
Lemma fetch_topics_spec (w : world) (date : string) (ts acc : list json) (s s1 : st) arts :
  fetch_topics w date ts acc s = (s1, Ok arts) ->
  exists qs, Forall2 (topic_fetched w (cfg (srv s)) date) ts qs /\
    arts = (acc ++ concat (map topic_items qs))%list /\
    srv s1 = srv s /\
    log s1 = (log s ++ map (topic_request (cfg (srv s)) date) qs)%list.
Proof.
  revert acc s; induction ts as [|t ts IH]; intros acc s; simpl.
  - intros H; injection H as <- <-. exists []; simpl.
    rewrite !app_nil_r. repeat split; constructor.
  - unfold bind at 1, subscript.
    destruct t as [| | | | |kvs]; try discriminate.
    destruct (dict_get kvs "topic") as [q|] eqn:Hq; [|discriminate].
    unfold ret at 1, bind at 1. rewrite fetch_news_impl_eq. cbv zeta.
    destruct (news_api w _) as [[| | | | |body]|] eqn:Hn; try discriminate.
    unfold bind at 1, py_iter.
    destruct (iter_items (dict_get_or body "articles" (JArr []))) as [items|] eqn:Hit;
      [|discriminate].
    unfold ret at 1. intros Hrec.
    destruct (IH _ _ Hrec) as (qs & Hf & Ha & Hs & Hl). simpl in Hf, Hs, Hl.
    exists ((q, dict_get_or kvs "count" (JInt 5), items) :: qs).
    split; [constructor; [exists kvs; repeat split; auto; eauto|exact Hf]|].
    split; [rewrite Ha; simpl; rewrite app_assoc; reflexivity|].
    split; [exact Hs|].
    rewrite Hl; simpl. rewrite <- app_assoc. reflexivity.
Qed.

(** C5 (as the code does it): when [smart_news_email] completes, it has
    fetched the topics in list order and concatenated their articles,
    produced the summary with [summarize_articles] on that concatenation,
    written the summary to news_summary_<date>.html, sent it by SMTP to
    the given address with subject "Daily News Summary - <date>" (the last
    external call), and returns {"status": "success", "file": filename}. *)
Theorem smart_news_email_flow (w : world) (date email : string) (topics : list json)
  (s s' : st) (v : json) :
  smart_news_email_impl w date email topics s = (s', Ok v) ->
  v = JObj [("status", JStr "success"); ("file", JStr ("news_summary_" ++ date ++ ".html"))] /\
  exists qs s1 s2 summary,
    Forall2 (topic_fetched w (cfg (srv s)) date) topics qs /\
    srv s1 = srv s /\
    log s1 = (log s ++ map (topic_request (cfg (srv s)) date) qs)%list /\
    summarize_articles_impl w (concat (map topic_items qs)) s1 = (s2, Ok summary) /\
    cfg (srv s') = cfg (srv s) /\
    files (srv s') = write_file (files (srv s)) ("news_summary_" ++ date ++ ".html") summary /\
    log s' = (log s2 ++ [ESmtpSend (SMTP_HOST (cfg (srv s))) (SMTP_PORT (cfg (srv s)))
                                   (SMTP_USER (cfg (srv s))) email
                                   ("Daily News Summary - " ++ date) summary])%list.
Proof.
  unfold smart_news_email_impl, bind at 1.
  destruct (fetch_topics w date topics [] s) as [s1 [arts|e]] eqn:E1; [|discriminate].
  destruct (fetch_topics_spec w date topics [] s s1 arts E1) as (qs & Hf & Ha & Hs1 & Hl1).
  simpl in Ha; subst arts.
  unfold bind at 1.
  destruct (summarize_articles_impl w (concat (map topic_items qs)) s1) as [s2 [summary|e]] eqn:E2;
    [|discriminate].
  assert (Hs2 : srv s2 = srv s1).
  { pose proof (summarize_articles_impl_keeps_srv w (concat (map topic_items qs)) s1) as K.
    rewrite E2 in K. exact K. }
  unfold bind at 1, write_file_m.
  destruct (can_open w (summary_filename date)); [|discriminate].
  unfold bind at 1, send_email_impl, bind, get_config, emit; simpl.
  destruct (smtp_ok w _ email _ summary); [|discriminate].
  unfold ret; intros H; injection H as <- <-.
  split; [reflexivity|].
  exists qs, s1, s2, summary. simpl.
  rewrite Hs2, Hs1. repeat split; auto.
Qed.

Lemma smart_news_email_flow_witness :
  exists s' v,
    smart_news_email_impl sample_world "2025-10-02" "reader@example.com" sample_topics sample_state
      = (s', Ok v) /\
    v = JObj [("status", JStr "success"); ("file", JStr "news_summary_2025-10-02.html")].
Proof.
  set (r := smart_news_email_impl sample_world "2025-10-02" "reader@example.com" sample_topics sample_state).
  assert (H : r = (fst r, Ok (JObj [("status", JStr "success");
                                    ("file", JStr "news_summary_2025-10-02.html")])))
    by (vm_compute; reflexivity).
  exists (fst r), (JObj [("status", JStr "success"); ("file", JStr "news_summary_2025-10-02.html")]).
  split; [exact H|].
  exact (proj1 (smart_news_email_flow sample_world "2025-10-02" "reader@example.com" sample_topics
                  sample_state (fst r) _ H)).
Defined.

(** With no topics (or topics that return no articles) the language model
    is never called: the placeholder "No news found" is what gets written
    and mailed. *)
Lemma smart_news_email_no_articles_no_llm :
  smart_news_email_impl sample_world "2025-10-02" "reader@example.com" [] sample_state
  = (mkSt (mkServer sample_config
             [("news_summary_2025-10-02.html", "<p>No news found for the selected topics/date.</p>")])
          [ESmtpSend "smtp.example.com" 465 (Some "bot@example.com") "reader@example.com"
             "Daily News Summary - 2025-10-02" "<p>No news found for the selected topics/date.</p>"],
     Ok (JObj [("status", JStr "success"); ("file", JStr "news_summary_2025-10-02.html")])) /\
  Forall (fun e => match e with EChat _ _ => False | _ => True end)
    (log (fst (smart_news_email_impl sample_world "2025-10-02" "reader@example.com" [] sample_state))).
Proof. split; [vm_compute; reflexivity | vm_compute; repeat constructor]. Qed.

(** ** Frame of the handlers *)

Ltac frame_done :=
  split; [reflexivity | first [left; reflexivity | right; eexists; reflexivity]].

(** C8 (as the code does it): no handler changes the configuration;
    [fetch_news], [summarize_articles] and [send_email] leave the whole
    server state unchanged, their only effects being the external calls
    in the log; [smart_news_email] additionally writes one server-side
    file, news_summary_<date>.html, and changes no other file. *)
Theorem handlers_frame (w : world) :
  (forall t d c, keeps_srv (fetch_news_impl w t d c)) /\
  (forall arts, keeps_srv (summarize_articles_impl w arts)) /\
  (forall t sj b, keeps_srv (send_email_impl w t sj b)) /\
  (forall d e ts s,
     let s' := fst (smart_news_email_impl w d e ts s) in
     cfg (srv s') = cfg (srv s) /\
     (files (srv s') = files (srv s) \/
      exists contents, files (srv s') = write_file (files (srv s)) (summary_filename d) contents)).
Proof.
  split; [apply fetch_news_impl_keeps_srv|].
  split; [apply summarize_articles_impl_keeps_srv|].
  split; [apply send_email_impl_keeps_srv|].
  intros d e ts s s'. subst s'.
  unfold smart_news_email_impl, bind.
  pose proof (fetch_topics_keeps_srv w d ts [] s) as K1.
  destruct (fetch_topics w d ts [] s) as [s1 [arts|ex]]; simpl in K1 |- *;
    [|rewrite K1; frame_done].
  pose proof (summarize_articles_impl_keeps_srv w arts s1) as K2.
  destruct (summarize_articles_impl w arts s1) as [s2 [summary|ex]]; simpl in K2 |- *;
    [|rewrite K2, K1; frame_done].
  unfold write_file_m.
  destruct (can_open w (summary_filename d)); simpl; [|rewrite K2, K1; frame_done].
  match goal with
  | |- context [send_email_impl w ?a ?b ?c ?st] =>
      pose proof (send_email_impl_keeps_srv w a b c st) as K3;
      destruct (send_email_impl w a b c st) as [s4 [r|ex]]
  end; simpl in K3 |- *; rewrite K3; simpl; rewrite K2, K1; frame_done.
Qed.

(** The working directory changes: the claim that handlers leave all
    server state unchanged fails for [smart_news_email]. *)
Lemma smart_news_email_writes_file :
  files (srv (fst (smart_news_email_impl sample_world "2025-10-02" "reader@example.com" []
                     sample_state))) <> files (srv sample_state).
Proof. vm_compute. discriminate. Qed.

(** ** Default count *)

Lemma dict_get_snoc (kvs : list (string * json)) (k k' : string) (v : json) :
  dict_get (kvs ++ [(k', v)])%list k =
  match dict_get kvs k with
  | Some x => Some x
  | None => if String.eqb k k' then Some v else None
  end.
Proof.
  induction kvs as [|[k0 v0] rest IH]; simpl; [reflexivity|].
  destruct (String.eqb k k0); [reflexivity|exact IH].
Qed.

(** C9: an omitted count means 5.  A [fetch_news] params dict without
    "count" validates exactly as the same dict with "count": 5, and a
    successful validation then carries count 5; a [TopicCount] entry
    without "count" validates to count 5; and the [smart_news_email]
    loop runs a topic dict without "count" exactly as the same dict with
    "count": 5. *)
Theorem count_defaults_to_5 (w : world) :
  (forall pk, dict_get pk "count" = None ->
     validate w FetchNewsParams pk = validate w FetchNewsParams (pk ++ [("count", JInt 5)])%list /\
     (forall t d c, validate w FetchNewsParams pk = inr (AFetch t d c) -> c = 5%Z)) /\
  (forall kvs t c, dict_get kvs "count" = None ->
     validate_topic_count w (JObj kvs) = inr (t, c) -> c = 5%Z) /\
  (forall date kvs rest acc s, dict_get kvs "count" = None ->
     fetch_topics w date (JObj kvs :: rest) acc s
     = fetch_topics w date (JObj (kvs ++ [("count", JInt 5)])%list :: rest) acc s).
Proof.
  split; [|split].
  - intros pk H. split.
    + unfold validate, field. rewrite !dict_get_snoc, H. simpl String.eqb.
      destruct (dict_get pk "topic"), (dict_get pk "date"); reflexivity.
    + intros t d c. unfold validate, field. rewrite H.
      destruct (dict_get pk "topic") as [jt|]; [destruct (as_str w jt)|];
      destruct (dict_get pk "date") as [jd|]; try destruct (as_str w jd);
      simpl; intro E; inversion E; reflexivity.
  - intros kvs t c H. unfold validate_topic_count, field. rewrite H.
    destruct (dict_get kvs "topic") as [jt|]; [destruct (as_str w jt)|];
      simpl; intro E; inversion E; reflexivity.
  - intros date kvs rest acc s H. simpl.
    unfold subscript, dict_get_or. rewrite !dict_get_snoc, H. simpl String.eqb.
    destruct (dict_get kvs "topic"); reflexivity.
Qed.

Lemma count_defaults_to_5_witness :
  dict_get [("topic", JStr "Sports"); ("date", JStr "2025-10-02")] "count" = None /\
  validate sample_world FetchNewsParams [("topic", JStr "Sports"); ("date", JStr "2025-10-02")]
    = inr (AFetch "Sports" "2025-10-02" 5) /\
  validate sample_world FetchNewsParams [("topic", JStr "Sports"); ("date", JStr "2025-10-02")]
    = validate sample_world FetchNewsParams
        [("topic", JStr "Sports"); ("date", JStr "2025-10-02"); ("count", JInt 5)].
Proof.
  assert (H : dict_get [("topic", JStr "Sports"); ("date", JStr "2025-10-02")] "count" = None)
    by reflexivity.
  split; [exact H|]. split; [reflexivity|].
  exact (proj1 (proj1 (count_defaults_to_5 sample_world) _ H)).
Defined.

(** * Further properties of the code *)

(** X1: [send_email] makes exactly one SMTP exchange: from [SMTP_USER]
    on the configured host and port, to the given address with the given
    subject and HTML body.  It changes no server state.  It returns
    {"sent": true} when the exchange succeeds and raises otherwise. *)
Theorem send_email_contract (w : world) (to_email subject body : string) (s : st) :
  let c := cfg (srv s) in
  let r := send_email_impl w to_email subject body s in
  srv (fst r) = srv s /\
  log (fst r) = (log s ++ [ESmtpSend (SMTP_HOST c) (SMTP_PORT c) (SMTP_USER c)
                                     to_email subject body])%list /\
  (smtp_ok w c to_email subject body = true -> snd r = Ok (JObj [("sent", JBool true)])) /\
  (smtp_ok w c to_email subject body = false -> snd r = Raise (OtherError "smtplib.SMTPException")).
Proof.
  intros c r. subst r c. unfold send_email_impl, bind, get_config, emit, ret, raise; simpl.
  destruct (smtp_ok w _ to_email subject body) eqn:E; simpl;
    repeat split; intro H; congruence.
Qed.

Lemma send_email_contract_witness :
  smtp_ok sample_world sample_config "reader@example.com" "Hi" "<p>x</p>" = true /\
  snd (send_email_impl sample_world "reader@example.com" "Hi" "<p>x</p>" sample_state)
    = Ok (JObj [("sent", JBool true)]).
Proof.
  assert (H : smtp_ok sample_world sample_config "reader@example.com" "Hi" "<p>x</p>" = true)
    by reflexivity.
  split; [exact H|].
  destruct (send_email_contract sample_world "reader@example.com" "Hi" "<p>x</p>" sample_state)
    as (_ & _ & Hok & _).
  exact (Hok H).
Defined.

Lemma as_dicts_map_JObj (ds : list (list (string * json))) : as_dicts (map JObj ds) = Some ds.
Proof. induction ds as [|d ds IH]; simpl; [reflexivity|]. rewrite IH. reflexivity. Qed.

(** X2: on a non-empty list of article dicts with an OpenAI key
    configured, [summarize_articles] makes exactly one chat call to
    gpt-4o-mini.  The call carries the fixed system prompt and, as the
    user message, one Title/Date/Content/Link block per article, in list
    order, separated by blank lines.  It changes no server state and
    returns the reply with surrounding whitespace stripped; a failed
    call raises. *)
Theorem summarize_llm_call (w : world) (ds : list (list (string * json))) (s : st) :
  ds <> [] -> client_present (cfg (srv s)) = true ->
  let prompt := [("system", SYSTEM_PROMPT); ("user", join (nl ++ nl) (map (format_article w) ds))] in
  let r := summarize_articles_impl w (map JObj ds) s in
  srv (fst r) = srv s /\
  log (fst r) = (log s ++ [EChat "gpt-4o-mini" prompt])%list /\
  (forall content, chat w "gpt-4o-mini" prompt = Some content -> snd r = Ok (strip content)) /\
  (chat w "gpt-4o-mini" prompt = None -> snd r = Raise (OtherError "openai.APIError")).
Proof.
  intros Hne Hk prompt r. subst r.
  unfold summarize_articles_impl.
  destruct ds as [|d ds']; [congruence|].
  cbn [map]. rewrite <- (map_cons JObj d ds'), as_dicts_map_JObj.
  unfold bind, get_config, emit, ret, raise. rewrite Hk. simpl negb. cbv iota beta.
  fold prompt. simpl.
  destruct (chat w "gpt-4o-mini" prompt) eqn:E; simpl;
    repeat split; intros; congruence.
Qed.

Lemma summarize_llm_call_witness :
  ([[("title", JStr "Match")]] <> [] /\ client_present (cfg (srv sample_state)) = true) /\
  snd (summarize_articles_impl sample_world [JObj [("title", JStr "Match")]] sample_state)
    = Ok "<h2>Match</h2>".
Proof.
  assert (H1 : [[("title", JStr "Match")]] <> @nil (list (string * json))) by discriminate.
  assert (H2 : client_present (cfg (srv sample_state)) = true) by reflexivity.
  split; [auto|].
  destruct (summarize_llm_call sample_world [[("title", JStr "Match")]] sample_state H1 H2)
    as (_ & _ & Hok & _).
  exact (Hok _ eq_refl).
Defined.

Lemma as_dicts_non_dict (arts : list json) (a : json) :
  In a arts -> (forall kvs, a <> JObj kvs) -> as_dicts arts = None.
Proof.
  induction arts as [|b arts IH]; simpl; [contradiction|].
  intros [->|Hin] Ha.
  - destruct a; try reflexivity. exfalso; eapply Ha; reflexivity.
  - destruct b; try reflexivity. rewrite (IH Hin Ha). reflexivity.
Qed.

(** X3: an article list containing an element that is not a dict makes
    [summarize_articles] raise before the OpenAI-key check: no chat call,
    no state change, and no "OpenAI API key missing" answer even when the
    key is absent. *)
Theorem summarize_non_dict_raises (w : world) (arts : list json) (a : json) (s : st) :
  In a arts -> (forall kvs, a <> JObj kvs) ->
  summarize_articles_impl w arts s = (s, Raise (OtherError "AttributeError")).
Proof.
  intros Hin Ha. unfold summarize_articles_impl.
  destruct arts as [|b rest]; [contradiction|].
  rewrite (as_dicts_non_dict _ a Hin Ha). reflexivity.
Qed.

Lemma summarize_non_dict_raises_witness :
  (In (JStr "headline") [JObj []; JStr "headline"] /\ (forall kvs, JStr "headline" <> JObj kvs)) /\
  summarize_articles_impl sample_world [JObj []; JStr "headline"] sample_state_nokey
    = (sample_state_nokey, Raise (OtherError "AttributeError")).
Proof.
  assert (H1 : In (JStr "headline") [JObj []; JStr "headline"]) by (simpl; auto).
  assert (H2 : forall kvs, JStr "headline" <> JObj kvs) by discriminate.
  split; [auto|].
  exact (summarize_non_dict_raises sample_world _ _ sample_state_nokey H1 H2).
Defined.


(** ** Failures inside [smart_news_email] *)

Lemma ret_news_only {A} (a : A) : news_only (ret a).
Proof. intro s; split; [reflexivity|]; exists []; rewrite app_nil_r; auto. Qed.
Lemma raise_news_only {A} e : news_only (@raise A e).
Proof. intro s; split; [reflexivity|]; exists []; rewrite app_nil_r; auto. Qed.
Lemma get_config_news_only : news_only get_config.
Proof. intro s; split; [reflexivity|]; exists []; rewrite app_nil_r; auto. Qed.
Lemma emit_news_only u ps : news_only (emit (ENewsGet u ps)).
Proof. intro s; split; [reflexivity|]; exists [ENewsGet u ps]; split; [reflexivity|]; repeat constructor. Qed.

Lemma bind_news_only {A B} (m : M A) (k : A -> M B) :
  news_only m -> (forall a, news_only (k a)) -> news_only (bind m k).
Proof.
  intros Hm Hk s; unfold bind. destruct (Hm s) as [H1 [e1 [H2 H3]]].
  destruct (m s) as [s1 [a|e]]; simpl in *; [|eauto].
  destruct (Hk a s1) as [H4 [e2 [H5 H6]]]. split; [congruence|].
  exists (e1 ++ e2)%list. rewrite H5, H2, app_assoc. split; [reflexivity|].
  apply Forall_app; auto.
Qed.

Create HintDb mnews.
#[export] Hint Resolve ret_news_only raise_news_only get_config_news_only emit_news_only : mnews.

Ltac mnews :=
  repeat first
    [ progress (eauto with mnews)
    | apply bind_news_only; [|intro]
    | match goal with
      | |- news_only (match ?x with _ => _ end) => destruct x
      end ].

Lemma fetch_topics_news_only (w : world) d ts acc : news_only (fetch_topics w d ts acc).
Proof.
  revert acc; induction ts as [|t ts IH]; intro acc; simpl.
  - apply ret_news_only.
  - apply bind_news_only; [unfold subscript; mnews|intro].
    apply bind_news_only; [unfold fetch_news_impl; mnews|intro].
    apply bind_news_only; [unfold py_iter; mnews|intro]. apply IH.
Qed.

Lemma smart_news_email_after_fetch_failure (w : world) d email ts s s1 e :
  fetch_topics w d ts [] s = (s1, Raise e) ->
  smart_news_email_impl w d email ts s = (s1, Raise e).
Proof. intros H. unfold smart_news_email_impl, bind at 1. rewrite H. reflexivity. Qed.

(** X5: when the topic loop of [smart_news_email] raises (a bad topic
    entry, a failed news request, an answer without a list of articles),
    [smart_news_email] raises the same exception.  By then it has changed
    no server state and made only news-API requests: no OpenAI call, no
    file, no email. *)
Theorem smart_news_email_fetch_failure (w : world) (date email : string) (topics : list json)
  (s s1 : st) (e : exn) :
  fetch_topics w date topics [] s = (s1, Raise e) ->
  smart_news_email_impl w date email topics s = (s1, Raise e) /\
  srv s1 = srv s /\
  exists evs, log s1 = (log s ++ evs)%list /\ Forall is_news_request evs.
Proof.
  intros H. split; [exact (smart_news_email_after_fetch_failure w date email topics s s1 e H)|].
  destruct (fetch_topics_news_only w date topics [] s) as [Hs Hl].
  rewrite H in Hs, Hl. exact (conj Hs Hl).
Qed.

Lemma smart_news_email_fetch_failure_witness :
  fetch_topics sample_world "2024-05-01" [JObj [("topic", JStr "Sports")]; JArr []] [] sample_state
    = (mkSt (srv sample_state)
         [ENewsGet NEWS_API_URL (fetch_news_params sample_config (JStr "Sports") "2024-05-01" (JInt 5))],
       Raise (OtherError "TypeError")) /\
  smart_news_email_impl sample_world "2024-05-01" "reader@example.com"
    [JObj [("topic", JStr "Sports")]; JArr []] sample_state
    = (mkSt (srv sample_state)
         [ENewsGet NEWS_API_URL (fetch_news_params sample_config (JStr "Sports") "2024-05-01" (JInt 5))],
       Raise (OtherError "TypeError")).
Proof.
  assert (H : fetch_topics sample_world "2024-05-01" [JObj [("topic", JStr "Sports")]; JArr []] []
                sample_state
              = (mkSt (srv sample_state)
                   [ENewsGet NEWS_API_URL (fetch_news_params sample_config (JStr "Sports") "2024-05-01" (JInt 5))],
                 Raise (OtherError "TypeError"))) by (vm_compute; reflexivity).
  split; [exact H|].
  exact (proj1 (smart_news_email_fetch_failure sample_world _ "reader@example.com" _ _ _ _ H)).
Defined.

Lemma fetch_topics_bad_entry (w : world) d ts t :
  In t ts -> (forall kvs, t = JObj kvs -> dict_get kvs "topic" = None) ->
  forall acc s, exists s1 e, fetch_topics w d ts acc s = (s1, Raise e).
Proof.
  intros Hin Ht. induction ts as [|t' ts IH]; [contradiction|].
  intros acc s. simpl. unfold bind at 1.
  destruct Hin as [->|Hin].
  - unfold subscript. destruct t as [| | | | |kvs]; try (do 2 eexists; reflexivity).
    rewrite (Ht kvs eq_refl). do 2 eexists; reflexivity.
  - destruct (subscript t' "topic" s) as [s2 [q|e]]; [|eauto].
    unfold bind at 1. destruct (fetch_news_impl w q d _ s2) as [s3 [arts|e]]; [|eauto].
    unfold bind at 1. destruct (py_iter arts s3) as [s4 [items|e]]; [|eauto].
    apply (IH Hin).
Qed.

Lemma fetch_topics_requests (w : world) (date : string) (ts acc : list json) (s s1 : st) o :
  fetch_topics w date ts acc s = (s1, o) ->
  srv s1 = srv s /\
  exists k evs, (k <= length ts)%nat /\ log s1 = (log s ++ evs)%list /\
    map Some evs = map (entry_request (cfg (srv s)) date) (firstn k ts).
Proof.
  revert acc s; induction ts as [|t ts IH]; intros acc s; simpl.
  - intros H; injection H as <- _. split; [reflexivity|].
    exists 0%nat, []. rewrite app_nil_r. repeat split. lia.
  - unfold bind at 1, subscript.
    destruct t as [| | | | |kvs];
      try (intros H; injection H as <- _; split; [reflexivity|]; exists 0%nat, [];
           rewrite app_nil_r; repeat split; simpl; lia).
    destruct (dict_get kvs "topic") as [q|] eqn:Hq;
      [|intros H; injection H as <- _; split; [reflexivity|]; exists 0%nat, [];
        rewrite app_nil_r; repeat split; simpl; lia].
    unfold ret at 1, bind at 1. rewrite fetch_news_impl_eq. cbv zeta.
    set (ev := ENewsGet NEWS_API_URL (fetch_news_params (cfg (srv s)) q date
                                        (dict_get_or kvs "count" (JInt 5)))).
    assert (Hev : map Some [ev] = map (entry_request (cfg (srv s)) date) (firstn 1 (JObj kvs :: ts)))
      by (simpl; rewrite Hq; reflexivity).
    destruct (news_api w _) as [[| | | | |body]|];
      try (intros H; injection H as <- _; split; [reflexivity|]; exists 1%nat, [ev];
           repeat split; [simpl; lia|exact Hev]).
    unfold bind at 1, py_iter.
    destruct (iter_items (dict_get_or body "articles" (JArr []))) as [items|];
      [|intros H; injection H as <- _; split; [reflexivity|]; exists 1%nat, [ev];
        repeat split; [simpl; lia|exact Hev]].
    unfold ret at 1. intros H.
    destruct (IH _ _ H) as (Hs & k & evs & Hk & Hl & Hm). simpl in Hs, Hl, Hm.
    split; [exact Hs|]. exists (S k), (ev :: evs).
    split; [simpl; lia|]. split; [rewrite Hl, <- app_assoc; reflexivity|].
    simpl. rewrite Hq, Hm. reflexivity.
Qed.

(** X6: if an entry [t] of [topics = pre ++ t :: post] is not a dict
    with a "topic" key, [smart_news_email] raises and changes no server
    state.  Its only external calls are one news-API request for each of
    the first k entries of [pre], in order, for some k no larger than
    [pre]: nothing for [t] or the entries after it, no OpenAI call, no
    file, no email. *)
Theorem smart_news_email_bad_topic_entry (w : world) (date email : string) (pre post : list json)
  (t : json) (s : st) :
  (forall kvs, t = JObj kvs -> dict_get kvs "topic" = None) ->
  let r := smart_news_email_impl w date email (pre ++ t :: post)%list s in
  (exists e, snd r = Raise e) /\ srv (fst r) = srv s /\
  exists k evs, (k <= length pre)%nat /\ log (fst r) = (log s ++ evs)%list /\
    map Some evs = map (entry_request (cfg (srv s)) date) (firstn k pre).
Proof.
  intros Ht r. subst r.
  assert (Hin : In t (pre ++ t :: post)%list) by (apply in_or_app; right; left; reflexivity).
  destruct (fetch_topics_bad_entry w date _ t Hin Ht [] s) as (s1 & e & H).
  rewrite (smart_news_email_after_fetch_failure w date email _ s s1 e H). simpl.
  destruct (fetch_topics_requests w date (pre ++ t :: post)%list [] s s1 _ H) as (Hs & k & evs & _ & Hl & Hm).
  assert (Hnone : entry_request (cfg (srv s)) date t = None)
    by (destruct t; try reflexivity; simpl; rewrite (Ht _ eq_refl); reflexivity).
  assert (Hle : (k <= length pre)%nat).
  { destruct (Nat.le_gt_cases k (length pre)) as [Hle|Hgt]; [exact Hle|exfalso].
    assert (Hn : In None (map (entry_request (cfg (srv s)) date) (firstn k (pre ++ t :: post)%list))).
    { rewrite firstn_app, firstn_all2 by lia.
      replace (k - length pre)%nat with (S (k - length pre - 1)) by lia.
      rewrite map_app. apply in_or_app; right. left. exact Hnone. }
    rewrite <- Hm in Hn. apply in_map_iff in Hn. destruct Hn as [x [Hx _]]; discriminate. }
  split; [eauto|]. split; [exact Hs|]. exists k, evs. split; [exact Hle|]. split; [exact Hl|].
  rewrite Hm, firstn_app. replace (k - length pre)%nat with 0%nat by lia.
  rewrite app_nil_r. reflexivity.
Qed.

Lemma smart_news_email_bad_topic_entry_witness :
  (forall kvs, JObj [("name", JStr "Crime")] = JObj kvs -> dict_get kvs "topic" = None) /\
  exists k evs, (k <= 1)%nat /\
    log (fst (smart_news_email_impl sample_world "2024-05-01" "reader@example.com"
                ([JObj [("topic", JStr "Sports")]] ++ JObj [("name", JStr "Crime")] :: [])%list
                sample_state)) = (log sample_state ++ evs)%list /\
    map Some evs = map (entry_request sample_config "2024-05-01") (firstn k [JObj [("topic", JStr "Sports")]]).
Proof.
  assert (H : forall kvs, JObj [("name", JStr "Crime")] = JObj kvs -> dict_get kvs "topic" = None)
    by (intros kvs E; injection E as <-; reflexivity).
  split; [exact H|].
  exact (proj2 (proj2 (smart_news_email_bad_topic_entry sample_world "2024-05-01" "reader@example.com"
                         [JObj [("topic", JStr "Sports")]] [] _ sample_state H))).
Defined.

(** X7: once the articles are fetched and summarised, [smart_news_email]
    writes news_summary_<date>.html before it contacts the SMTP server.
    If the file cannot be opened it raises with no email sent and nothing
    else changed.  If the SMTP exchange then fails it raises, and the file
    already holds the summary. *)
Theorem smart_news_email_file_before_email (w : world) (date email : string) (topics : list json)
  (s s1 s2 : st) (arts : list json) (summary : string) :
  fetch_topics w date topics [] s = (s1, Ok arts) ->
  summarize_articles_impl w arts s1 = (s2, Ok summary) ->
  let r := smart_news_email_impl w date email topics s in
  (can_open w (summary_filename date) = false -> r = (s2, Raise (OtherError "OSError"))) /\
  (can_open w (summary_filename date) = true ->
   smtp_ok w (cfg (srv s2)) email ("Daily News Summary - " ++ date) summary = false ->
   snd r = Raise (OtherError "smtplib.SMTPException") /\
   files (srv (fst r)) = write_file (files (srv s2)) (summary_filename date) summary).
Proof.
  intros H1 H2 r. subst r. unfold smart_news_email_impl, bind. cbv beta. rewrite H1.
  cbv iota beta. rewrite H2. cbv iota beta. unfold write_file_m.
  split; intros Ho; rewrite Ho; [reflexivity|].
  intros Hs. unfold send_email_impl, bind, get_config, emit, ret, raise. cbn -[String.append].
  rewrite Hs. split; reflexivity.
Qed.

Lemma smart_news_email_file_before_email_witness :
  exists s1 arts s2 summary,
    (fetch_topics sample_world_smtp_down "2024-05-01" [JObj [("topic", JStr "Sports")]] [] sample_state
       = (s1, Ok arts) /\
     summarize_articles_impl sample_world_smtp_down arts s1 = (s2, Ok summary) /\
     can_open sample_world_smtp_down (summary_filename "2024-05-01") = true /\
     smtp_ok sample_world_smtp_down (cfg (srv s2)) "reader@example.com"
       ("Daily News Summary - " ++ "2024-05-01") summary = false) /\
    snd (smart_news_email_impl sample_world_smtp_down "2024-05-01" "reader@example.com"
           [JObj [("topic", JStr "Sports")]] sample_state)
      = Raise (OtherError "smtplib.SMTPException") /\
    files (srv (fst (smart_news_email_impl sample_world_smtp_down "2024-05-01" "reader@example.com"
                       [JObj [("topic", JStr "Sports")]] sample_state)))
      = [("news_summary_2024-05-01.html", "<h2>Match</h2>")].
Proof.
  pose (s1 := mkSt (srv sample_state)
          [ENewsGet NEWS_API_URL (fetch_news_params sample_config (JStr "Sports") "2024-05-01" (JInt 5))]).
  pose (arts := [JObj [("title", JStr "Match")]]).
  pose (s2 := mkSt (srv sample_state)
          (log s1 ++ [EChat "gpt-4o-mini"
                        [("system", SYSTEM_PROMPT);
                         ("user", format_article sample_world_smtp_down [("title", JStr "Match")])]])%list).
  exists s1, arts, s2, "<h2>Match</h2>".
  assert (H1 : fetch_topics sample_world_smtp_down "2024-05-01" [JObj [("topic", JStr "Sports")]] []
                 sample_state = (s1, Ok arts)) by (vm_compute; reflexivity).
  assert (H2 : summarize_articles_impl sample_world_smtp_down arts s1 = (s2, Ok "<h2>Match</h2>"))
    by (vm_compute; reflexivity).
  assert (H3 : can_open sample_world_smtp_down (summary_filename "2024-05-01") = true) by reflexivity.
  assert (H4 : smtp_ok sample_world_smtp_down (cfg (srv s2)) "reader@example.com"
                 ("Daily News Summary - " ++ "2024-05-01") "<h2>Match</h2>" = false) by reflexivity.
  split; [auto|].
  destruct (proj2 (smart_news_email_file_before_email sample_world_smtp_down "2024-05-01"
                     "reader@example.com" _ _ _ _ _ _ H1 H2) H3 H4) as [Hr Hf].
  split; [exact Hr|]. rewrite Hf. reflexivity.
Defined.

(** ** Validation and dispatch *)

(** X8: validating a params dict reads only the model's own fields:
    two dicts that agree on those fields validate to the same result,
    whatever other keys they carry (unknown keys are ignored, not
    rejected). *)
Theorem validate_reads_model_fields (w : world) (m : param_model) (kvs kvs' : list (string * json)) :
  (forall k, In k (model_fields m) -> dict_get kvs k = dict_get kvs' k) ->
  validate w m kvs = validate w m kvs'.
Proof.
  intros H. destruct m; cbn [model_fields] in H; unfold validate, field, required_list;
    repeat (rewrite H by (simpl; tauto)); reflexivity.
Qed.

Lemma validate_reads_model_fields_witness :
  (forall k, In k (model_fields FetchNewsParams) ->
     dict_get [("topic", JStr "Sports"); ("date", JStr "2024-05-01"); ("verbose", JBool true)] k
     = dict_get [("topic", JStr "Sports"); ("date", JStr "2024-05-01")] k) /\
  validate sample_world FetchNewsParams
    [("topic", JStr "Sports"); ("date", JStr "2024-05-01"); ("verbose", JBool true)]
  = inr (AFetch "Sports" "2024-05-01" 5).
Proof.
  assert (H : forall k, In k (model_fields FetchNewsParams) ->
     dict_get [("topic", JStr "Sports"); ("date", JStr "2024-05-01"); ("verbose", JBool true)] k
     = dict_get [("topic", JStr "Sports"); ("date", JStr "2024-05-01")] k)
    by (simpl; intros k [<-|[<-|[<-|[]]]]; reflexivity).
  split; [exact H|].
  rewrite (validate_reads_model_fields sample_world FetchNewsParams _ _ H). reflexivity.
Defined.

Lemma ret_not_raising {A} msg (a : A) : not_raising msg (ret a).
Proof. intros s; discriminate. Qed.
Lemma emit_not_raising msg e : not_raising msg (emit e).
Proof. intros s; discriminate. Qed.
Lemma get_config_not_raising msg : not_raising msg get_config.
Proof. intros s; discriminate. Qed.
Lemma raise_other_not_raising {A} msg what : what <> msg -> not_raising msg (@raise A (OtherError what)).
Proof. intros H s E; injection E; exact H. Qed.

Lemma bind_not_raising {A B} msg (m : M A) (k : A -> M B) :
  not_raising msg m -> (forall a, not_raising msg (k a)) -> not_raising msg (bind m k).
Proof.
  intros Hm Hk s; unfold bind. specialize (Hm s).
  destruct (m s) as [s1 [a|e]]; simpl in *; [apply Hk|].
  intro E; inversion E; subst; apply Hm; reflexivity.
Qed.

Create HintDb mraise.
#[export] Hint Resolve ret_not_raising emit_not_raising get_config_not_raising : mraise.

Ltac mraise :=
  repeat first
    [ progress (eauto with mraise)
    | apply bind_not_raising; [|intro]
    | apply raise_other_not_raising; discriminate
    | match goal with
      | |- not_raising _ (match ?x with _ => _ end) => destruct x
      | |- not_raising _ (if ?x then _ else _) => destruct x
      end ].

Lemma fetch_topics_not_raising (w : world) d ts acc : not_raising "TypeError: unexpected keyword argument" (fetch_topics w d ts acc).
Proof.
  revert acc; induction ts as [|t ts IH]; intro acc; simpl; [mraise|].
  apply bind_not_raising; [unfold subscript; mraise|intro].
  apply bind_not_raising; [unfold fetch_news_impl; mraise|intro].
  apply bind_not_raising; [unfold py_iter; mraise|intro]. apply IH.
Qed.

Lemma validate_shape (w : world) m pk a :
  validate w m pk = inr a ->
  match m, a with
  | FetchNewsParams, AFetch _ _ _ | SendEmailParams, ASend _ _ _
  | SummarizeParams, ASummarize _ | SmartNewsEmailParams, ASmart _ _ _ => True
  | _, _ => False
  end.
Proof.
  destruct m; unfold validate, vmap;
    match goal with |- context [match ?x with inl _ => _ | inr _ => _ end] => destruct x end;
    try discriminate; intro H; injection H as <-;
    repeat match goal with p : (_ * _)%type |- _ => destruct p end; exact I.
Qed.

(** X9: the registry's models and handlers fit each other: for every
    registered tool, the arguments its model validates are ones its
    handler accepts, so a call with validated params never fails with
    the keyword-argument TypeError of calling the handler with the
    model's fields as keyword arguments. *)
Theorem validated_args_fit_handler (w : world) (name : string) (m : param_model) impl
  (pk : list (string * json)) (a : tool_args) :
  lookup TOOLS_MODELS name = Some m -> lookup (TOOLS_IMPL w) name = Some impl ->
  validate w m pk = inr a ->
  not_raising "TypeError: unexpected keyword argument" (impl a).
Proof.
  intros Hm Hi Hv. pose proof (validate_shape w m pk a Hv) as Hs.
  unfold TOOLS_MODELS, TOOLS_IMPL in *; simpl in Hm, Hi.
  destruct (String.eqb name "fetch_news");
    [injection Hm as <-; injection Hi as <-; destruct a; try contradiction;
     unfold fetch_news_impl; mraise|].
  destruct (String.eqb name "summarize_articles");
    [injection Hm as <-; injection Hi as <-; destruct a; try contradiction;
     unfold summarize_articles_impl; mraise|].
  destruct (String.eqb name "send_email");
    [injection Hm as <-; injection Hi as <-; destruct a; try contradiction;
     unfold send_email_impl; mraise|].
  destruct (String.eqb name "smart_news_email");
    [injection Hm as <-; injection Hi as <-; destruct a; try contradiction|discriminate].
  unfold smart_news_email_impl.
  apply bind_not_raising; [apply fetch_topics_not_raising|intro].
  apply bind_not_raising; [unfold summarize_articles_impl; mraise|intro].
  apply bind_not_raising; [intros s; unfold write_file_m; destruct (can_open w _); discriminate|intro].
  apply bind_not_raising; [unfold send_email_impl; mraise|intro]. mraise.
Qed.

Lemma validated_args_fit_handler_witness :
  (lookup TOOLS_MODELS "send_email" = Some SendEmailParams /\
   lookup (TOOLS_IMPL sample_world) "send_email"
     = Some (fun a => match a with ASend t s b => send_email_impl sample_world t s b | _ => bad_kwargs end) /\
   validate sample_world SendEmailParams
     [("to_email", JStr "reader@example.com"); ("subject", JStr "Hi"); ("body", JStr "<p>x</p>")]
   = inr (ASend "reader@example.com" "Hi" "<p>x</p>")) /\
  not_raising "TypeError: unexpected keyword argument"
    (send_email_impl sample_world "reader@example.com" "Hi" "<p>x</p>").
Proof.
  assert (H1 : lookup TOOLS_MODELS "send_email" = Some SendEmailParams) by reflexivity.
  assert (H2 : lookup (TOOLS_IMPL sample_world) "send_email"
     = Some (fun a => match a with ASend t s b => send_email_impl sample_world t s b | _ => bad_kwargs end))
    by reflexivity.
  assert (H3 : validate sample_world SendEmailParams
     [("to_email", JStr "reader@example.com"); ("subject", JStr "Hi"); ("body", JStr "<p>x</p>")]
     = inr (ASend "reader@example.com" "Hi" "<p>x</p>")) by reflexivity.
  split; [auto|].
  exact (validated_args_fit_handler sample_world "send_email" _ _ _ _ H1 H2 H3).
Defined.

Lemma try_catch_keeps_cfg {A} (m : M A) (h : exn -> M A) :
  keeps_cfg m -> (forall e, keeps_cfg (h e)) -> keeps_cfg (try_catch m h).
Proof.
  intros Hm Hh s; unfold try_catch. specialize (Hm s).
  destruct (m s) as [s1 [a|e]]; simpl in *; [exact Hm|]. rewrite Hh; exact Hm.
Qed.

Lemma try_catch_keeps_srv {A} (m : M A) (h : exn -> M A) :
  keeps_srv m -> (forall e, keeps_srv (h e)) -> keeps_srv (try_catch m h).
Proof.
  intros Hm Hh s; unfold try_catch. specialize (Hm s).
  destruct (m s) as [s1 [a|e]]; simpl in *; [exact Hm|]. rewrite Hh; exact Hm.
Qed.

Lemma serve_keeps_cfg (m : M json) : keeps_cfg m -> keeps_cfg (serve m).
Proof.
  intros Hm s; unfold serve. specialize (Hm s).
  destruct (m s) as [s1 [a|[]]]; exact Hm.
Qed.

Lemma serve_keeps_srv (m : M json) : keeps_srv m -> keeps_srv (serve m).
Proof.
  intros Hm s; unfold serve. specialize (Hm s).
  destruct (m s) as [s1 [a|[]]]; exact Hm.
Qed.

Lemma smart_news_email_impl_keeps_cfg (w : world) d e ts : keeps_cfg (smart_news_email_impl w d e ts).
Proof.
  unfold smart_news_email_impl.
  apply bind_keeps_cfg; [apply keeps_srv_cfg, fetch_topics_keeps_srv|intro].
  apply bind_keeps_cfg; [apply keeps_srv_cfg, summarize_articles_impl_keeps_srv|intro].
  apply bind_keeps_cfg; [apply write_file_m_keeps_cfg|intro].
  apply bind_keeps_cfg; [apply keeps_srv_cfg, send_email_impl_keeps_srv|intro].
  apply keeps_srv_cfg, ret_keeps_srv.
Qed.

Lemma instantiate_keeps_srv (w : world) m params : keeps_srv (instantiate w m params).
Proof. unfold instantiate. mframe. Qed.

(** Every handler but smart_news_email keeps the whole server state. *)
Lemma tools_impl_keeps_srv (w : world) name impl a :
  name <> "smart_news_email" -> lookup (TOOLS_IMPL w) name = Some impl -> keeps_srv (impl a).
Proof.
  unfold TOOLS_IMPL; simpl; intros Hn H.
  destruct (String.eqb name "fetch_news");
    [injection H as <-; destruct a; try apply fetch_news_impl_keeps_srv; apply raise_keeps_srv|].
  destruct (String.eqb name "summarize_articles");
    [injection H as <-; destruct a; try apply raise_keeps_srv;
     apply bind_keeps_srv; [apply summarize_articles_impl_keeps_srv|intro; apply ret_keeps_srv]|].
  destruct (String.eqb name "send_email");
    [injection H as <-; destruct a; try apply send_email_impl_keeps_srv; apply raise_keeps_srv|].
  destruct (String.eqb_spec name "smart_news_email"); [contradiction|discriminate].
Qed.

Lemma tools_impl_keeps_cfg (w : world) name impl a :
  lookup (TOOLS_IMPL w) name = Some impl -> keeps_cfg (impl a).
Proof.
  intros H. destruct (String.eqb_spec name "smart_news_email") as [->|Hn].
  - simpl in H. injection H as <-. destruct a; try apply keeps_srv_cfg, raise_keeps_srv.
    apply smart_news_email_impl_keeps_cfg.
  - apply keeps_srv_cfg. exact (tools_impl_keeps_srv w name impl a Hn H).
Qed.

Lemma invoke_tool_keeps_cfg (w : world) name params : keeps_cfg (invoke_tool w name params).
Proof.
  unfold invoke_tool.
  apply bind_keeps_cfg; [apply keeps_srv_cfg; mframe|intro].
  apply bind_keeps_cfg; [apply keeps_srv_cfg, instantiate_keeps_srv|intro].
  destruct (lookup (TOOLS_IMPL w) name) eqn:Hi; [|apply keeps_srv_cfg; mframe].
  exact (tools_impl_keeps_cfg w name _ _ Hi).
Qed.

Lemma invoke_tool_keeps_srv (w : world) name params :
  name <> "smart_news_email" -> keeps_srv (invoke_tool w name params).
Proof.
  intros Hn. unfold invoke_tool.
  apply bind_keeps_srv; [mframe|intro].
  apply bind_keeps_srv; [apply instantiate_keeps_srv|intro].
  destruct (lookup (TOOLS_IMPL w) name) eqn:Hi; [|mframe].
  exact (tools_impl_keeps_srv w name _ _ Hn Hi).
Qed.

Lemma dispatch_payload_keeps_cfg (w : world) p : keeps_cfg (dispatch_payload w p).
Proof.
  unfold dispatch_payload. destruct p as [|b|z|str|l|kvs]; try solve [apply keeps_srv_cfg; mframe]. cbv zeta.
  destruct (negb (truthy (dict_get_or kvs "method" JNull))); [apply keeps_srv_cfg; mframe|].
  destruct (dict_get_or kvs "method" JNull) as [|b|z|mth|l|o]; try solve [apply keeps_srv_cfg; mframe].
  destruct (negb (String.prefix "tool." mth)); [apply keeps_srv_cfg; mframe|].
  destruct (after_first_dot mth) as [name|]; [|apply keeps_srv_cfg; mframe].
  destruct (lookup (TOOLS_IMPL w) name); [|apply keeps_srv_cfg; mframe].
  apply try_catch_keeps_cfg; [|intro; apply keeps_srv_cfg; mframe].
  apply bind_keeps_cfg; [apply invoke_tool_keeps_cfg|intro; apply keeps_srv_cfg; mframe].
Qed.

Lemma check_api_key_keeps_srv hdr : keeps_srv (check_api_key hdr).
Proof. unfold check_api_key. mframe. Qed.

(** X10: no request changes the server's configuration: whatever the
    header and the body, POST /jsonrpc and GET /mcp/registry leave the
    API keys, the SMTP settings and the MCP key as they were, and
    GET /mcp/registry leaves the whole server state unchanged. *)
Theorem requests_keep_config (w : world) (hdr : option string) (request : option json) :
  keeps_cfg (handle_jsonrpc w hdr request) /\ keeps_srv (get_registry hdr).
Proof.
  split.
  - unfold handle_jsonrpc, handle_jsonrpc_body. apply serve_keeps_cfg.
    apply bind_keeps_cfg; [apply keeps_srv_cfg, check_api_key_keeps_srv|intro].
    apply bind_keeps_cfg; [apply keeps_srv_cfg; mframe|intro].
    apply dispatch_payload_keeps_cfg.
  - unfold get_registry, get_registry_body. apply serve_keeps_srv.
    apply bind_keeps_srv; [apply check_api_key_keeps_srv|intro; mframe].
Qed.

(** X11: only tool.smart_news_email changes server state: a POST
    /jsonrpc whose body is not a dict with method "tool.smart_news_email"
    leaves the server state (configuration and files) unchanged, whatever
    it does otherwise. *)
Theorem other_requests_keep_server (w : world) (hdr : option string) (request : option json) :
  (forall kvs, request = Some (JObj kvs) -> dict_get_or kvs "method" JNull <> JStr "tool.smart_news_email") ->
  keeps_srv (handle_jsonrpc w hdr request).
Proof.
  intros Hr. unfold handle_jsonrpc, handle_jsonrpc_body. apply serve_keeps_srv.
  apply bind_keeps_srv; [apply check_api_key_keeps_srv|intro].
  destruct request as [p|]; [|mframe].
  assert (H : keeps_srv (dispatch_payload w p)).
  { unfold dispatch_payload. destruct p as [|b|z|str|l|kvs]; try solve [mframe].
    specialize (Hr kvs eq_refl). cbv zeta.
    destruct (negb (truthy _)); [mframe|].
    destruct (dict_get_or kvs "method" JNull) as [|b|z|mth|l|o] eqn:Hm; try solve [mframe].
    destruct (String.prefix "tool." mth) eqn:Hp; simpl negb; [|mframe].
    destruct (prefix_tool mth Hp) as [name ->]. rewrite after_first_dot_tool.
    destruct (lookup (TOOLS_IMPL w) name); [|mframe].
    apply try_catch_keeps_srv; [|intro; mframe].
    apply bind_keeps_srv; [|intro; mframe].
    apply invoke_tool_keeps_srv. intros ->. apply Hr. reflexivity. }
  intro s; unfold bind at 1, ret. exact (H s).
Qed.

Lemma other_requests_keep_server_witness :
  (forall kvs, Some sample_bad_request = Some (JObj kvs) ->
     dict_get_or kvs "method" JNull <> JStr "tool.smart_news_email") /\
  srv (fst (handle_jsonrpc sample_world (Some "secret") (Some sample_bad_request) sample_state))
    = srv sample_state.
Proof.
  assert (H : forall kvs, Some sample_bad_request = Some (JObj kvs) ->
     dict_get_or kvs "method" JNull <> JStr "tool.smart_news_email")
    by (intros kvs E; injection E as <-; discriminate).
  split; [exact H|].
  exact (other_requests_keep_server sample_world (Some "secret") _ H sample_state).
Defined.

(** ** The client: [call_tool] of src/run.py *)

Lemma call_tool_payload (w : world) (s : st) (method : string) (params req_id : json) :
  MCP_API_KEY (cfg (srv s)) <> "" ->
  call_tool w (Some (MCP_API_KEY (cfg (srv s)))) method params req_id s =
  match serve (dispatch_payload w (JObj [("jsonrpc", JStr "2.0"); ("id", req_id);
                  ("method", JStr ("tool." ++ method)); ("params", params)])) s with
  | (s', Ok (HttpJson (JObj body))) => (s', Ok (dict_get_or body "result" JNull))
  | (s', Ok (HttpJson _)) => (s', Raise (OtherError "AttributeError"))
  | (s', Ok (HttpError _)) => (s', Raise (OtherError "requests.HTTPError"))
  | (s', Raise e) => (s', Raise e)
  end.
Proof.
  intros Hne. unfold call_tool, bind at 1. rewrite (handle_jsonrpc_payload w s _ Hne).
  destruct (serve _ s) as [s' [[[]|]|e]]; reflexivity.
Qed.

(** X12: with the server's key, a registered tool and params that
    validate, [call_tool] returns exactly what the tool's handler
    returns, with the handler's effects. *)
Theorem call_tool_returns_result (w : world) (s s' : st) (name : string) (m : param_model) impl
  (pk : list (string * json)) (a : tool_args) (r req_id : json) :
  MCP_API_KEY (cfg (srv s)) <> "" ->
  lookup TOOLS_MODELS name = Some m -> lookup (TOOLS_IMPL w) name = Some impl ->
  validate w m pk = inr a -> impl a s = (s', Ok r) ->
  call_tool w (Some (MCP_API_KEY (cfg (srv s)))) name (JObj pk) req_id s = (s', Ok r).
Proof.
  intros Hne Hm Hi Hv Hr. rewrite (call_tool_payload w s name _ _ Hne). unfold serve.
  erewrite (dispatch_tool w s _ name impl); [|reflexivity|exact Hi].
  unfold try_catch, bind at 1. cbv beta.
    change (dict_get_or ?kv "params" (JObj [])) with (JObj pk). rewrite (invoke_tool_valid w s name m impl pk a Hm Hi Hv), Hr.
  reflexivity.
Qed.

Lemma call_tool_returns_result_witness :
  (MCP_API_KEY (cfg (srv sample_state)) <> "" /\
   lookup TOOLS_MODELS "fetch_news" = Some FetchNewsParams /\
   validate sample_world FetchNewsParams [("topic", JStr "Sports"); ("date", JStr "2024-05-01")]
     = inr (AFetch "Sports" "2024-05-01" 5)) /\
  snd (call_tool sample_world (Some "secret") "fetch_news"
         (JObj [("topic", JStr "Sports"); ("date", JStr "2024-05-01")]) (JInt 1) sample_state)
    = Ok (JArr [JObj [("title", JStr "Match")]]).
Proof.
  assert (H0 : MCP_API_KEY (cfg (srv sample_state)) <> "") by discriminate.
  assert (H1 : lookup TOOLS_MODELS "fetch_news" = Some FetchNewsParams) by reflexivity.
  assert (H2 : lookup (TOOLS_IMPL sample_world) "fetch_news"
     = Some (fun a => match a with AFetch t d c => fetch_news_impl sample_world (JStr t) d (JInt c)
                                 | _ => bad_kwargs end)) by reflexivity.
  assert (H3 : validate sample_world FetchNewsParams [("topic", JStr "Sports"); ("date", JStr "2024-05-01")]
     = inr (AFetch "Sports" "2024-05-01" 5)) by reflexivity.
  split; [auto|].
  assert (H4 : (fun a => match a with AFetch t d c => fetch_news_impl sample_world (JStr t) d (JInt c)
                                     | _ => bad_kwargs end) (AFetch "Sports" "2024-05-01" 5) sample_state
     = (fst (fetch_news_impl sample_world (JStr "Sports") "2024-05-01" (JInt 5) sample_state),
        Ok (JArr [JObj [("title", JStr "Match")]]))) by (vm_compute; reflexivity).
  exact (f_equal snd (call_tool_returns_result sample_world sample_state _ "fetch_news" _ _ _ _ _
                        (JInt 1) H0 H1 H2 H3 H4)).
Defined.

(** X13: with the server's key, every JSON-RPC error answer reaches the
    caller of [call_tool] as a plain None (the body has no "result"), not
    as an exception.  The error cases are: an unregistered tool, params
    that are not an object (-32000), params that fail validation
    (-32602), and a handler that raises (-32000).  Since [call_tool]
    always sends "tool.<method>", these are all the error answers. *)
Theorem call_tool_errors_are_none (w : world) (s : st) (name : string) (params req_id : json) :
  MCP_API_KEY (cfg (srv s)) <> "" ->
  let call := call_tool w (Some (MCP_API_KEY (cfg (srv s)))) name params req_id in
  (lookup (TOOLS_IMPL w) name = None -> call s = (s, Ok JNull)) /\
  ((forall pk, params <> JObj pk) -> call s = (s, Ok JNull)) /\
  (forall m pk es, params = JObj pk -> lookup TOOLS_MODELS name = Some m -> validate w m pk = inl es ->
     call s = (s, Ok JNull)) /\
  (forall m impl pk a s' e, params = JObj pk ->
     lookup TOOLS_MODELS name = Some m -> lookup (TOOLS_IMPL w) name = Some impl ->
     validate w m pk = inr a -> impl a s = (s', Raise e) -> call s = (s', Ok JNull)).
Proof.
  intros Hne call. subst call.
  assert (Hunk : lookup (TOOLS_IMPL w) name = None ->
                 call_tool w (Some (MCP_API_KEY (cfg (srv s)))) name params req_id s = (s, Ok JNull)).
  { intros Hi. rewrite (call_tool_payload w s name _ _ Hne). unfold serve.
    erewrite (dispatch_unknown_tool w s _ name); [reflexivity|reflexivity|exact Hi]. }
  split; [exact Hunk|]. split; [|split].
  - intros Hp. destruct (lookup (TOOLS_IMPL w) name) as [impl|] eqn:Hi; [|exact (Hunk eq_refl)].
    destruct (proj2 (models_impl_keys w name) (ex_intro _ impl Hi)) as [m Hm].
    rewrite (call_tool_payload w s name _ _ Hne). unfold serve.
    erewrite (dispatch_tool w s _ name impl); [|reflexivity|exact Hi].
    unfold try_catch, bind at 1. cbv beta.
    change (dict_get_or ?kv "params" (JObj [])) with params.
    rewrite (invoke_tool_not_mapping w s name m params Hm Hp). reflexivity.
  - intros m pk es -> Hm Hv. destruct (proj1 (models_impl_keys w name) (ex_intro _ m Hm)) as [impl Hi].
    rewrite (call_tool_payload w s name _ _ Hne). unfold serve.
    erewrite (dispatch_tool w s _ name impl); [|reflexivity|exact Hi].
    unfold try_catch, bind at 1. cbv beta.
    change (dict_get_or ?kv "params" (JObj [])) with (JObj pk).
    rewrite (invoke_tool_invalid w s name m pk es Hm Hv). reflexivity.
  - intros m impl pk a s' e -> Hm Hi Hv Hr. rewrite (call_tool_payload w s name _ _ Hne). unfold serve.
    erewrite (dispatch_tool w s _ name impl); [|reflexivity|exact Hi].
    unfold try_catch, bind at 1. cbv beta.
    change (dict_get_or ?kv "params" (JObj [])) with (JObj pk).
    rewrite (invoke_tool_valid w s name m impl pk a Hm Hi Hv), Hr.
    destruct e; reflexivity.
Qed.

Lemma call_tool_errors_are_none_witness :
  MCP_API_KEY (cfg (srv sample_state)) <> "" /\
  call_tool sample_world (Some "secret") "fetch_news" (JArr [JStr "Sports"]) (JInt 1) sample_state
    = (sample_state, Ok JNull).
Proof.
  assert (H0 : MCP_API_KEY (cfg (srv sample_state)) <> "") by discriminate.
  split; [exact H0|].
  exact (proj1 (proj2 (call_tool_errors_are_none sample_world sample_state "fetch_news"
                         (JArr [JStr "Sports"]) (JInt 1) H0)) (fun pk E => ltac:(discriminate E))).
Defined.

(** X14: when the client's key is missing or differs from the server's
    MCP_API_KEY (or the server's key is empty), [call_tool] raises
    requests' HTTPError, and the request has run nothing on the server:
    state and call log are unchanged. *)
Theorem call_tool_rejected_key (w : world) (s : st) (key : option string) (name : string)
  (params req_id : json) :
  key <> Some (MCP_API_KEY (cfg (srv s))) \/ MCP_API_KEY (cfg (srv s)) = "" ->
  call_tool w key name params req_id s = (s, Raise (OtherError "requests.HTTPError")).
Proof.
  intros H. unfold call_tool, handle_jsonrpc, handle_jsonrpc_body, serve, check_api_key, bind,
    get_config, raise, ret.
  destruct key as [k|]; [|reflexivity]. cbv beta iota.
  destruct (String.eqb_spec k "") as [E|E]; [reflexivity|].
  destruct (String.eqb_spec k (MCP_API_KEY (cfg (srv s)))) as [E'|E']; [|reflexivity].
  exfalso. subst k. destruct H as [H|H]; [apply H; reflexivity|contradiction].
Qed.

Lemma call_tool_rejected_key_witness :
  (Some "guess" <> Some (MCP_API_KEY (cfg (srv sample_state))) \/ MCP_API_KEY (cfg (srv sample_state)) = "") /\
  call_tool sample_world (Some "guess") "send_email" (JObj []) (JInt 1) sample_state
    = (sample_state, Raise (OtherError "requests.HTTPError")).
Proof.
  assert (H : Some "guess" <> Some (MCP_API_KEY (cfg (srv sample_state))) \/
              MCP_API_KEY (cfg (srv sample_state)) = "") by (left; discriminate).
  split; [exact H|].
  exact (call_tool_rejected_key sample_world sample_state _ "send_email" (JObj []) (JInt 1) H).
Defined.

(** ** The news requests the server makes *)

Lemma fetch_news_params_query (c : config) q date cnt :
  dict_get (fetch_news_params c q date cnt) "language" = Some (JStr "en") /\
  dict_get (fetch_news_params c q date cnt) "apiKey" = option_map JStr (NEWS_API_KEY c).
Proof.
  unfold fetch_news_params, drop_none.
  destruct q, (NEWS_API_KEY c), cnt; split; reflexivity.
Qed.

Lemma ret_queries_ok {A} (a : A) : queries_ok (ret a).
Proof. intro s; split; [reflexivity|]; exists []; rewrite app_nil_r; auto. Qed.
Lemma raise_queries_ok {A} e : queries_ok (@raise A e).
Proof. intro s; split; [reflexivity|]; exists []; rewrite app_nil_r; auto. Qed.
Lemma get_config_queries_ok : queries_ok get_config.
Proof. intro s; split; [reflexivity|]; exists []; rewrite app_nil_r; auto. Qed.
Lemma emit_queries_ok e : (forall c, news_query_ok c e) -> queries_ok (emit e).
Proof. intros He s; split; [reflexivity|]; exists [e]; split; [reflexivity|]; auto. Qed.

Lemma bind_queries_ok {A B} (m : M A) (k : A -> M B) :
  queries_ok m -> (forall a, queries_ok (k a)) -> queries_ok (bind m k).
Proof.
  intros Hm Hk s; unfold bind. destruct (Hm s) as [H1 [e1 [H2 H3]]].
  destruct (m s) as [s1 [a|e]]; simpl in *; [|eauto].
  destruct (Hk a s1) as [H4 [e2 [H5 H6]]]. split; [congruence|].
  exists (e1 ++ e2)%list. rewrite H5, H2, app_assoc. split; [reflexivity|].
  apply Forall_app; split; [exact H3|]. rewrite <- H1. exact H6.
Qed.

Lemma try_catch_queries_ok {A} (m : M A) (h : exn -> M A) :
  queries_ok m -> (forall e, queries_ok (h e)) -> queries_ok (try_catch m h).
Proof.
  intros Hm Hh s; unfold try_catch. destruct (Hm s) as [H1 [e1 [H2 H3]]].
  destruct (m s) as [s1 [a|e]]; simpl in *; [eauto|].
  destruct (Hh e s1) as [H4 [e2 [H5 H6]]]. split; [congruence|].
  exists (e1 ++ e2)%list. rewrite H5, H2, app_assoc. split; [reflexivity|].
  apply Forall_app; split; [exact H3|]. rewrite <- H1. exact H6.
Qed.

Lemma serve_queries_ok (m : M json) : queries_ok m -> queries_ok (serve m).
Proof.
  intros Hm s; unfold serve. specialize (Hm s).
  destruct (m s) as [s1 [a|[]]]; exact Hm.
Qed.

Lemma write_file_m_queries_ok (w : world) p c : queries_ok (write_file_m w p c).
Proof.
  intro s; unfold write_file_m; destruct (can_open w p); (split; [reflexivity|]);
    exists []; rewrite app_nil_r; auto.
Qed.

Lemma fetch_news_impl_queries_ok (w : world) t d c : queries_ok (fetch_news_impl w t d c).
Proof.
  intro s. rewrite fetch_news_impl_eq. cbv zeta; simpl. split; [reflexivity|].
  eexists; split; [reflexivity|]. constructor; [|constructor].
  simpl. split; [reflexivity|]. apply fetch_news_params_query.
Qed.

Create HintDb mquery.
#[export] Hint Resolve ret_queries_ok raise_queries_ok get_config_queries_ok
  write_file_m_queries_ok fetch_news_impl_queries_ok : mquery.

Ltac mquery :=
  repeat first
    [ progress (eauto with mquery)
    | apply bind_queries_ok; [|intro]
    | apply try_catch_queries_ok; [|intro]
    | apply emit_queries_ok; intro; exact I
    | match goal with
      | |- queries_ok (match ?x with _ => _ end) => destruct x
      | |- queries_ok (if ?x then _ else _) => destruct x
      end ].

Lemma fetch_topics_queries_ok (w : world) d ts acc : queries_ok (fetch_topics w d ts acc).
Proof.
  revert acc; induction ts as [|t ts IH]; intro acc; simpl; [mquery|].
  apply bind_queries_ok; [unfold subscript; mquery|intro].
  apply bind_queries_ok; [apply fetch_news_impl_queries_ok|intro].
  apply bind_queries_ok; [unfold py_iter; mquery|intro]. apply IH.
Qed.

Lemma tools_impl_queries_ok (w : world) name impl a :
  lookup (TOOLS_IMPL w) name = Some impl -> queries_ok (impl a).
Proof.
  unfold TOOLS_IMPL; simpl; intro H.
  destruct (String.eqb name "fetch_news"); [injection H as <-; destruct a; mquery|].
  destruct (String.eqb name "summarize_articles");
    [injection H as <-; destruct a; unfold summarize_articles_impl; mquery|].
  destruct (String.eqb name "send_email");
    [injection H as <-; destruct a; unfold send_email_impl; mquery|].
  destruct (String.eqb name "smart_news_email"); [injection H as <-|discriminate].
  destruct a; try solve [mquery]. unfold smart_news_email_impl.
  apply bind_queries_ok; [apply fetch_topics_queries_ok|intro].
  unfold summarize_articles_impl, send_email_impl. mquery.
Qed.

Lemma invoke_tool_queries_ok (w : world) name params : queries_ok (invoke_tool w name params).
Proof.
  unfold invoke_tool.
  apply bind_queries_ok; [mquery|intro].
  apply bind_queries_ok; [unfold instantiate; mquery|intro].
  destruct (lookup (TOOLS_IMPL w) name) eqn:Hi; [|mquery].
  exact (tools_impl_queries_ok w name _ _ Hi).
Qed.

(** X4: every news-API request the server makes, whatever POST /jsonrpc
    it serves (any header, any body, any tool), goes to NEWS_API_URL with
    language "en" and with apiKey the configured NEWS_API_KEY, left out
    when that key is unset. *)
Theorem news_requests_well_formed (w : world) (hdr : option string) (request : option json) :
  queries_ok (handle_jsonrpc w hdr request).
Proof.
  unfold handle_jsonrpc, handle_jsonrpc_body, check_api_key. apply serve_queries_ok.
  apply bind_queries_ok; [mquery|intro].
  apply bind_queries_ok; [mquery|intro p].
  unfold dispatch_payload. destruct p as [|b|z|str|l|kvs]; try solve [mquery]. cbv zeta.
  destruct (negb (truthy (dict_get_or kvs "method" JNull))); [mquery|].
  destruct (dict_get_or kvs "method" JNull) as [|b|z|mth|l|o]; try solve [mquery].
  destruct (negb (String.prefix "tool." mth)); [mquery|].
  destruct (after_first_dot mth) as [name|]; [|mquery].
  destruct (lookup (TOOLS_IMPL w) name); [|mquery].
  apply try_catch_queries_ok; [|intro; mquery].
  apply bind_queries_ok; [apply invoke_tool_queries_ok|intro; mquery].
Qed.
